(** * pySlipQt: the key-tile bookkeeping of the slip-map widget

    A shallow embedding of [src/pyslipqt/pyslipqt.py] (class [PySlipQt]):
    the drag normalisation [normalize_view], the level change [zoom_level]
    and the tile lists that [paintEvent] builds.

    Python integers are unbounded, so they are [Z]; Python's [%] rounds
    towards minus infinity and takes the sign of the divisor, which is
    [Z.modulo], except that it raises [ZeroDivisionError] on a zero
    divisor.  The widget is one mutable object: a method is a function
    from the widget to an [outcome], and a raised exception keeps the
    widget as it was mutated up to the raise.  A [while] loop takes fuel;
    [OutOfFuel] stands for a loop that has not finished yet. *)

From Stdlib Require Import ZArith List Bool Lia.
Import ListNotations.
Local Open Scope Z_scope.

(** ** Outcomes of a method call *)

Inductive exn : Type :=
| AttributeError
| ZeroDivisionError
| TypeError
| ValueError.

Inductive outcome (S A : Type) : Type :=
| Returned (a : A) (s : S)
| Raised (e : exn) (s : S)
| OutOfFuel.

Arguments Returned {S A} a s.
Arguments Raised {S A} e s.
Arguments OutOfFuel {S A}.

Definition M (S A : Type) : Type := S -> outcome S A.

Definition ret {S A} (a : A) : M S A := fun s => Returned a s.

Definition bind {S A B} (m : M S A) (k : A -> M S B) : M S B :=
  fun s =>
    match m s with
    | Returned a s' => k a s'
    | Raised e s' => Raised e s'
    | OutOfFuel => OutOfFuel
    end.

Definition get {S} : M S S := fun s => Returned s s.
Definition put {S} (s : S) : M S unit := fun _ => Returned tt s.
Definition modify {S} (f : S -> S) : M S unit := fun s => Returned tt (f s).
Definition raise {S A} (e : exn) : M S A := fun s => Raised e s.

Notation "x <- m ;; k" := (bind m (fun x => k))
  (at level 61, m at next level, right associativity).
Notation "m ;; k" := (bind m (fun _ => k))
  (at level 61, right associativity).

(** [self.attr] for an attribute that [__init__] does not set. *)
Definition attr {S} (a : option Z) : M S Z :=
  match a with
  | Some v => ret v
  | None => raise AttributeError
  end.

(** Python's [a % n] on integers. *)
Definition py_mod {S} (a n : Z) : M S Z :=
  if n =? 0 then raise ZeroDivisionError else ret (a mod n).

(** The state a call leaves behind, when it leaves one. *)
Definition final_state {S A} (o : outcome S A) : option S :=
  match o with
  | Returned _ s => Some s
  | Raised _ s => Some s
  | OutOfFuel => None
  end.

(** ** The tile source

    [tile_src] is an object of another module; the widget uses the
    attributes and methods below.  [GetInfo] answers a 4-tuple of which
    the widget keeps the first two components, or [None] for a level it
    does not have. *)

Module Tiles.

Class t (T : Type) : Type := {
  levels : T -> list Z;
  tile_size_x : T -> Z;
  tile_size_y : T -> Z;
  wrap_x : T -> bool;
  wrap_y : T -> bool;
  UseLevel : Z -> M T bool;
  GetInfo : Z -> T -> option (Z * Z)
}.

End Tiles.

(** ** The widget *)

Record PySlipQt (T : Type) : Type := mkPySlipQt {
  tile_src : T;
  level : Z;
  view_offset_x : Z;
  view_offset_y : Z;
  view_width : Z;
  view_height : Z;
  max_level : Z;
  min_level : Z;
  tile_size_x : Z;
  tile_size_y : Z;
  key_tile_left : Z;
  key_tile_top : Z;
  key_tile_xoffset : Z;
  key_tile_yoffset : Z;
  left_mbutton_down : bool;
  mid_mbutton_down : bool;
  right_mbutton_down : bool;
  start_drag_x : option Z;
  start_drag_y : option Z;
  (* assigned by zoom_level only: absent until a level was accepted *)
  num_tiles_x : option Z;
  num_tiles_y : option Z;
  (* how often self.update() was called *)
  updates : nat
}.

Arguments mkPySlipQt {T}.
Arguments tile_src {T}.
Arguments level {T}.
Arguments view_offset_x {T}.
Arguments view_offset_y {T}.
Arguments view_width {T}.
Arguments view_height {T}.
Arguments max_level {T}.
Arguments min_level {T}.
Arguments tile_size_x {T}.
Arguments tile_size_y {T}.
Arguments key_tile_left {T}.
Arguments key_tile_top {T}.
Arguments key_tile_xoffset {T}.
Arguments key_tile_yoffset {T}.
Arguments left_mbutton_down {T}.
Arguments mid_mbutton_down {T}.
Arguments right_mbutton_down {T}.
Arguments start_drag_x {T}.
Arguments start_drag_y {T}.
Arguments num_tiles_x {T}.
Arguments num_tiles_y {T}.
Arguments updates {T}.

(** A key tile along one axis: its tile coordinate and its pixel offset
    in the view. *)
Record key : Type := mkKey { tile : Z; offset : Z }.

Section Widget.

Context {T : Type} `{Tiles.t T}.

Local Abbreviation widget := (PySlipQt T).

(** *** Attribute assignments *)

Definition key_x (w : widget) : key :=
  mkKey (key_tile_left w) (key_tile_xoffset w).

Definition key_y (w : widget) : key :=
  mkKey (key_tile_top w) (key_tile_yoffset w).

Definition set_key_x (k : key) (w : widget) : widget :=
  mkPySlipQt (tile_src w) (level w) (view_offset_x w) (view_offset_y w)
    (view_width w) (view_height w) (max_level w) (min_level w)
    (tile_size_x w) (tile_size_y w)
    (tile k) (key_tile_top w) (offset k) (key_tile_yoffset w)
    (left_mbutton_down w) (mid_mbutton_down w) (right_mbutton_down w)
    (start_drag_x w) (start_drag_y w)
    (num_tiles_x w) (num_tiles_y w) (updates w).

Definition set_key_y (k : key) (w : widget) : widget :=
  mkPySlipQt (tile_src w) (level w) (view_offset_x w) (view_offset_y w)
    (view_width w) (view_height w) (max_level w) (min_level w)
    (tile_size_x w) (tile_size_y w)
    (key_tile_left w) (tile k) (key_tile_xoffset w) (offset k)
    (left_mbutton_down w) (mid_mbutton_down w) (right_mbutton_down w)
    (start_drag_x w) (start_drag_y w)
    (num_tiles_x w) (num_tiles_y w) (updates w).

Definition set_tile_src (src : T) (w : widget) : widget :=
  mkPySlipQt src (level w) (view_offset_x w) (view_offset_y w)
    (view_width w) (view_height w) (max_level w) (min_level w)
    (tile_size_x w) (tile_size_y w)
    (key_tile_left w) (key_tile_top w)
    (key_tile_xoffset w) (key_tile_yoffset w)
    (left_mbutton_down w) (mid_mbutton_down w) (right_mbutton_down w)
    (start_drag_x w) (start_drag_y w)
    (num_tiles_x w) (num_tiles_y w) (updates w).

Definition set_level (l : Z) (w : widget) : widget :=
  mkPySlipQt (tile_src w) l (view_offset_x w) (view_offset_y w)
    (view_width w) (view_height w) (max_level w) (min_level w)
    (tile_size_x w) (tile_size_y w)
    (key_tile_left w) (key_tile_top w)
    (key_tile_xoffset w) (key_tile_yoffset w)
    (left_mbutton_down w) (mid_mbutton_down w) (right_mbutton_down w)
    (start_drag_x w) (start_drag_y w)
    (num_tiles_x w) (num_tiles_y w) (updates w).

Definition set_num_tiles (nx ny : Z) (w : widget) : widget :=
  mkPySlipQt (tile_src w) (level w) (view_offset_x w) (view_offset_y w)
    (view_width w) (view_height w) (max_level w) (min_level w)
    (tile_size_x w) (tile_size_y w)
    (key_tile_left w) (key_tile_top w)
    (key_tile_xoffset w) (key_tile_yoffset w)
    (left_mbutton_down w) (mid_mbutton_down w) (right_mbutton_down w)
    (start_drag_x w) (start_drag_y w)
    (Some nx) (Some ny) (updates w).

Definition set_view (vw vh : Z) (w : widget) : widget :=
  mkPySlipQt (tile_src w) (level w) (view_offset_x w) (view_offset_y w)
    vw vh (max_level w) (min_level w)
    (tile_size_x w) (tile_size_y w)
    (key_tile_left w) (key_tile_top w)
    (key_tile_xoffset w) (key_tile_yoffset w)
    (left_mbutton_down w) (mid_mbutton_down w) (right_mbutton_down w)
    (start_drag_x w) (start_drag_y w)
    (num_tiles_x w) (num_tiles_y w) (updates w).

Definition set_start_drag (x y : option Z) (w : widget) : widget :=
  mkPySlipQt (tile_src w) (level w) (view_offset_x w) (view_offset_y w)
    (view_width w) (view_height w) (max_level w) (min_level w)
    (tile_size_x w) (tile_size_y w)
    (key_tile_left w) (key_tile_top w)
    (key_tile_xoffset w) (key_tile_yoffset w)
    (left_mbutton_down w) (mid_mbutton_down w) (right_mbutton_down w)
    x y
    (num_tiles_x w) (num_tiles_y w) (updates w).

Definition set_left_mbutton_down (b : bool) (w : widget) : widget :=
  mkPySlipQt (tile_src w) (level w) (view_offset_x w) (view_offset_y w)
    (view_width w) (view_height w) (max_level w) (min_level w)
    (tile_size_x w) (tile_size_y w)
    (key_tile_left w) (key_tile_top w)
    (key_tile_xoffset w) (key_tile_yoffset w)
    b (mid_mbutton_down w) (right_mbutton_down w)
    (start_drag_x w) (start_drag_y w)
    (num_tiles_x w) (num_tiles_y w) (updates w).

(** [self.update()]: Qt schedules a repaint; the model counts the
    requests. *)
Definition count_update (w : widget) : widget :=
  mkPySlipQt (tile_src w) (level w) (view_offset_x w) (view_offset_y w)
    (view_width w) (view_height w) (max_level w) (min_level w)
    (tile_size_x w) (tile_size_y w)
    (key_tile_left w) (key_tile_top w)
    (key_tile_xoffset w) (key_tile_yoffset w)
    (left_mbutton_down w) (mid_mbutton_down w) (right_mbutton_down w)
    (start_drag_x w) (start_drag_y w)
    (num_tiles_x w) (num_tiles_y w) (S (updates w)).

Definition update : M widget unit := modify count_update.

(** Run a computation on the key tile of one axis inside the widget;
    what it did before raising stays in the widget. *)
Definition on_key {A} (rd : widget -> key) (wr : key -> widget -> widget)
    (m : M key A) : M widget A :=
  fun w =>
    match m (rd w) with
    | Returned a k => Returned a (wr k w)
    | Raised e k => Raised e (wr k w)
    | OutOfFuel => OutOfFuel
    end.

(** *** __init__ (lines 45-95), the part that is not Qt set-up *)

Definition py_max (l : list Z) : option Z :=
  match l with
  | [] => None
  | x :: r => Some (fold_left Z.max r x)
  end.

Definition py_min (l : list Z) : option Z :=
  match l with
  | [] => None
  | x :: r => Some (fold_left Z.min r x)
  end.

Definition init (src : T) (start_level : Z) : option widget :=
  match py_max (Tiles.levels src), py_min (Tiles.levels src) with
  | Some hi, Some lo =>
      Some (mkPySlipQt src start_level 0 0 0 0 hi lo
              (Tiles.tile_size_x src) (Tiles.tile_size_y src)
              0 0 0 0 false false false None None None None 0%nat)
  | _, _ => None
  end.

(** *** normalize_view (lines 162-208)

    The two loops of lines 174-182 (X) and of lines 195-203 (Y) are the
    same text with [xoffset]/[left]/[_x] renamed to [yoffset]/[top]/[_y];
    they are written once, over the key tile of the axis, with
    [self.tile_size_*] as [size] and [self.num_tiles_*] as [num]. *)

Fixpoint while_offset_pos (fuel : nat) (size : Z) (num : option Z)
    : M key unit :=
  match fuel with
  | O => fun _ => OutOfFuel
  | S fuel' =>
      k <- get ;;
      if offset k >? 0 then
        modify (fun k => mkKey (tile k) (offset k - size)) ;;
        modify (fun k => mkKey (tile k + 1) (offset k)) ;;
        k <- get ;;
        n <- attr num ;;
        r <- py_mod (tile k) n ;;
        put (mkKey r (offset k)) ;;
        while_offset_pos fuel' size num
      else ret tt
  end.

Fixpoint while_offset_low (fuel : nat) (size : Z) (num : option Z)
    : M key unit :=
  match fuel with
  | O => fun _ => OutOfFuel
  | S fuel' =>
      k <- get ;;
      if offset k <=? - size then
        modify (fun k => mkKey (tile k) (offset k + size)) ;;
        modify (fun k => mkKey (tile k - 1) (offset k)) ;;
        k <- get ;;
        n <- attr num ;;
        r <- py_mod (tile k + n) n ;;
        put (mkKey r (offset k)) ;;
        while_offset_low fuel' size num
      else ret tt
  end.

(** The wrapping branch: lines 172-182, and 193-203. *)
Definition move_key (fuel : nat) (delta size : Z) (num : option Z)
    : M key unit :=
  modify (fun k => mkKey (tile k) (offset k - delta)) ;;
  while_offset_pos fuel size num ;;
  while_offset_low fuel size num.

(** [if delta:] holds for an integer other than 0, not for [None]. *)
Definition truthy (delta : option Z) : option Z :=
  match delta with
  | Some d => if d =? 0 then None else Some d
  | None => None
  end.

(** Lines 169-188: the X axis. *)
Definition normalize_x (fuel : nat) (delta_x : option Z) : M widget unit :=
  match truthy delta_x with
  | Some dx =>
      w <- get ;;
      if Tiles.wrap_x (tile_src w) then
        on_key key_x set_key_x
          (move_key fuel dx (tile_size_x w) (num_tiles_x w))
      else ret tt
  | None => ret tt
  end.

(** Lines 190-208: the Y axis. *)
Definition normalize_y (fuel : nat) (delta_y : option Z) : M widget unit :=
  match truthy delta_y with
  | Some dy =>
      w <- get ;;
      if Tiles.wrap_y (tile_src w) then
        on_key key_y set_key_y
          (move_key fuel dy (tile_size_y w) (num_tiles_y w))
      else ret tt
  | None => ret tt
  end.

Definition normalize_view (fuel : nat) (delta_x delta_y : option Z)
    : M widget unit :=
  normalize_x fuel delta_x ;;
  normalize_y fuel delta_y.

(** Lines 156-157 of mouseMoveEvent: what a drag step does to the
    widget. *)
Definition pan (fuel : nat) (delta_x delta_y : Z) : M widget unit :=
  normalize_view fuel (Some delta_x) (Some delta_y) ;;
  update.

Definition set_mid_mbutton_down (b : bool) (w : widget) : widget :=
  mkPySlipQt (tile_src w) (level w) (view_offset_x w) (view_offset_y w)
    (view_width w) (view_height w) (max_level w) (min_level w)
    (tile_size_x w) (tile_size_y w)
    (key_tile_left w) (key_tile_top w)
    (key_tile_xoffset w) (key_tile_yoffset w)
    (left_mbutton_down w) b (right_mbutton_down w)
    (start_drag_x w) (start_drag_y w)
    (num_tiles_x w) (num_tiles_y w) (updates w).

Definition set_right_mbutton_down (b : bool) (w : widget) : widget :=
  mkPySlipQt (tile_src w) (level w) (view_offset_x w) (view_offset_y w)
    (view_width w) (view_height w) (max_level w) (min_level w)
    (tile_size_x w) (tile_size_y w)
    (key_tile_left w) (key_tile_top w)
    (key_tile_xoffset w) (key_tile_yoffset w)
    (left_mbutton_down w) (mid_mbutton_down w) b
    (start_drag_x w) (start_drag_y w)
    (num_tiles_x w) (num_tiles_y w) (updates w).

(** *** Mouse events (lines 99-160) *)

Inductive button : Type :=
| NoButton
| LeftButton
| MidButton
| RightButton
| OtherButton.

Definition mousePressEvent (b : button) : M widget unit :=
  match b with
  | LeftButton => modify (set_left_mbutton_down true)
  | MidButton => modify (set_mid_mbutton_down true)
  | RightButton => modify (set_right_mbutton_down true)
  | NoButton | OtherButton => ret tt
  end.

Definition mouseReleaseEvent (b : button) : M widget unit :=
  match b with
  | LeftButton =>
      modify (set_left_mbutton_down false) ;;
      modify (set_start_drag None None)
  | MidButton => modify (set_mid_mbutton_down false)
  | RightButton => modify (set_right_mbutton_down false)
  | NoButton | OtherButton => ret tt
  end.

(** [if self.start_drag_x:] is false for [None] and for the pixel 0;
    [self.start_drag_y - y] raises on [None]. *)
Definition mouseMoveEvent (fuel : nat) (x y : Z) : M widget unit :=
  w <- get ;;
  if left_mbutton_down w then
    match truthy (start_drag_x w) with
    | Some sx =>
        match start_drag_y w with
        | Some sy => pan fuel (sx - x) (sy - y)
        | None => raise TypeError
        end
    | None => ret tt
    end ;;
    modify (set_start_drag (Some x) (Some y))
  else ret tt.

(** *** zoom_level, use_level, wheelEvent (lines 219-241, 313-327) *)

(** A call of a method of [self.tile_src]. *)
Definition on_tile_src {A} (m : M T A) : M widget A :=
  fun w =>
    match m (tile_src w) with
    | Returned a src => Returned a (set_tile_src src w)
    | Raised e src => Raised e (set_tile_src src w)
    | OutOfFuel => OutOfFuel
    end.

Definition zoom_level (lvl : Z) : M widget bool :=
  result <- on_tile_src (Tiles.UseLevel lvl) ;;
  if result : bool then
    modify (set_level lvl) ;;
    w <- get ;;
    match Tiles.GetInfo lvl (tile_src w) with
    | Some (nx, ny) =>
        modify (set_num_tiles nx ny) ;;
        update ;;
        ret result
    | None => raise TypeError
    end
  else ret result.

Definition use_level (lvl : Z) : M widget bool := zoom_level lvl.

Definition wheelEvent (angle_delta_y : Z) : M widget unit :=
  w <- get ;;
  let new_level :=
    if angle_delta_y <? 0 then level w + 1 else level w - 1 in
  use_level new_level ;;
  ret tt.

(** *** resizeEvent (lines 243-256); [recalc_wrap] is [pass] *)

Definition recalc_wrap : M widget unit := ret tt.

Definition resizeEvent (width height : Z) : M widget unit :=
  modify (set_view width height) ;;
  recalc_wrap.

(** *** paintEvent (lines 258-307)

    Lines 269-277 build [col_list] and lines 279-287 build [row_list] by
    the same loop; the list under construction is the state of the loop,
    [coord] and [pix_start] are its two other locals. *)

Fixpoint tile_list (fuel : nat) (wrap : bool) (num : option Z)
    (size view coord pix_start : Z) : M (list Z) unit :=
  match fuel with
  | O => fun _ => OutOfFuel
  | S fuel' =>
      if pix_start <? view then
        modify (fun l => l ++ [coord]) ;;
        stop <- (if negb wrap
                 then n <- attr num ;; ret (coord >=? n - 1)
                 else ret false) ;;
        if stop : bool then ret tt
        else
          n <- attr num ;;
          next <- py_mod (coord + 1) n ;;
          tile_list fuel' wrap num size view next (pix_start + size)
      else ret tt
  end.

(** A loop over locals: the widget is read and not written. *)
Definition locals {L A} (start : L) (m : M L A) : M widget L :=
  fun w =>
    match m start with
    | Returned _ l => Returned l w
    | Raised e _ => Raised e w
    | OutOfFuel => OutOfFuel
    end.

Definition col_list (fuel : nat) : M widget (list Z) :=
  w <- get ;;
  locals [] (tile_list fuel (Tiles.wrap_x (tile_src w)) (num_tiles_x w)
               (Tiles.tile_size_x (tile_src w)) (view_width w)
               (key_tile_left w) (key_tile_xoffset w)).

Definition row_list (fuel : nat) : M widget (list Z) :=
  w <- get ;;
  locals [] (tile_list fuel (Tiles.wrap_y (tile_src w)) (num_tiles_y w)
               (Tiles.tile_size_y (tile_src w)) (view_height w)
               (key_tile_top w) (key_tile_yoffset w)).

(** One [drawPixmap] call: where, and which tile. *)
Record draw : Type := mkDraw { x_pix : Z; y_pix : Z; x : Z; y : Z }.

Fixpoint draw_rows (size_y xp yp xc : Z) (rows : list Z) : list draw :=
  match rows with
  | [] => []
  | yc :: rows' =>
      mkDraw xp yp xc yc :: draw_rows size_y xp (yp + size_y) xc rows'
  end.

Fixpoint draw_cols (size_x size_y xp yoffset : Z) (cols rows : list Z)
    : list draw :=
  match cols with
  | [] => []
  | xc :: cols' =>
      draw_rows size_y xp yoffset xc rows
        ++ draw_cols size_x size_y (xp + size_x) yoffset cols' rows
  end.

Definition paintEvent (fuel : nat) : M widget (list draw) :=
  cols <- col_list fuel ;;
  rows <- row_list fuel ;;
  w <- get ;;
  ret (draw_cols (tile_size_x w) (tile_size_y w)
         (key_tile_xoffset w) (key_tile_yoffset w) cols rows).

End Widget.

(** ** A tile source for the examples

    A grid with the same tile counts at every level it has; [UseLevel]
    accepts the levels of [grid_levels] and remembers the last one
    accepted. *)

Record grid : Type := mkGrid {
  grid_levels : list Z;
  grid_size_x : Z;
  grid_size_y : Z;
  grid_wrap_x : bool;
  grid_wrap_y : bool;
  grid_num_x : Z;
  grid_num_y : Z;
  grid_level : Z
}.

Definition grid_has (lvl : Z) (g : grid) : bool :=
  existsb (Z.eqb lvl) (grid_levels g).

Definition grid_UseLevel (lvl : Z) : M grid bool :=
  fun g =>
    if grid_has lvl g
    then Returned true
           (mkGrid (grid_levels g) (grid_size_x g) (grid_size_y g)
              (grid_wrap_x g) (grid_wrap_y g)
              (grid_num_x g) (grid_num_y g) lvl)
    else Returned false g.

Definition grid_GetInfo (lvl : Z) (g : grid) : option (Z * Z) :=
  if grid_has lvl g then Some (grid_num_x g, grid_num_y g) else None.

#[export] Instance grid_tiles : Tiles.t grid := {|
  Tiles.levels := grid_levels;
  Tiles.tile_size_x := grid_size_x;
  Tiles.tile_size_y := grid_size_y;
  Tiles.wrap_x := grid_wrap_x;
  Tiles.wrap_y := grid_wrap_y;
  Tiles.UseLevel := grid_UseLevel;
  Tiles.GetInfo := grid_GetInfo
|}.

(** Four by four tiles of 256 pixels, wrapping in both directions. *)
Definition world : grid := mkGrid [0; 1; 2] 256 256 true true 4 4 0.

(** The same grid with edges. *)
Definition sheet : grid := mkGrid [0; 1; 2] 256 256 false false 4 4 0.

(** A widget on [g] after [__init__], an accepted [zoom_level 0] and a
    resize to [vw] by [vh] pixels. *)
Definition opened (g : grid) (vw vh : Z) : option (PySlipQt grid) :=
  match init g 0 with
  | Some w => final_state ((zoom_level 0 ;; resizeEvent vw vh) w)
  | None => None
  end.

Definition started (g : grid) (vw vh : Z) : PySlipQt grid :=
  match opened g vw vh with
  | Some w => w
  | None => mkPySlipQt g 0 0 0 0 0 0 0 0 0 0 0 0 0
              false false false None None None None 0%nat
  end.

(** ** Vocabulary of the statements

    The two axes of the widget, so that a statement about "an axis" is
    one statement; and the part of the widget that anchors the map in
    the view. *)

Inductive axis : Type := X | Y.

Section Axes.

Context {T : Type} `{Tiles.t T}.

Definition wraps (a : axis) (w : PySlipQt T) : bool :=
  match a with
  | X => Tiles.wrap_x (tile_src w)
  | Y => Tiles.wrap_y (tile_src w)
  end.

(** [self.tile_size_x], [self.tile_size_y] *)
Definition size_of (a : axis) (w : PySlipQt T) : Z :=
  match a with X => tile_size_x w | Y => tile_size_y w end.

(** [self.tile_src.tile_size_x], [self.tile_src.tile_size_y] *)
Definition src_size_of (a : axis) (w : PySlipQt T) : Z :=
  match a with
  | X => Tiles.tile_size_x (tile_src w)
  | Y => Tiles.tile_size_y (tile_src w)
  end.

Definition num_of (a : axis) (w : PySlipQt T) : option Z :=
  match a with X => num_tiles_x w | Y => num_tiles_y w end.

Definition view_of (a : axis) (w : PySlipQt T) : Z :=
  match a with X => view_width w | Y => view_height w end.

Definition key_of (a : axis) (w : PySlipQt T) : key :=
  match a with X => key_x w | Y => key_y w end.

(** A drag along [a]; [other] is the argument for the other axis. *)
Definition normalize_along (a : axis) (fuel : nat) (delta other : option Z)
    : M (PySlipQt T) unit :=
  match a with
  | X => normalize_view fuel delta other
  | Y => normalize_view fuel other delta
  end.

(** [col_list] for X, [row_list] for Y. *)
Definition list_of (a : axis) (fuel : nat) : M (PySlipQt T) (list Z) :=
  match a with X => col_list fuel | Y => row_list fuel end.

(** The key tile of [a] is normalised for [n] tiles. *)
Definition normalized (a : axis) (n : Z) (w : PySlipQt T) : Prop :=
  num_of a w = Some n
  /\ - size_of a w < offset (key_of a w) <= 0
  /\ 0 <= tile (key_of a w) < n.

(** Level, key tile and key offsets. *)
Definition anchor (w : PySlipQt T) : Z * key * key :=
  (level w, key_x w, key_y w).

End Axes.

(** The pixel and the tile column of each [drawPixmap] call of a paint. *)
Definition painted_columns (o : outcome (PySlipQt grid) (list draw))
    : list (Z * Z) :=
  match o with
  | Returned l _ => map (fun d => (x_pix d, x d)) l
  | _ => []
  end.

(** ** Closed forms

    What a drag of [delta] pixels makes of a key tile, written with one
    division instead of the two loops; the number of turns of the loop
    of paintEvent; and the key tile of an axis, written back. *)

Definition moved (size n delta : Z) (k : key) : key :=
  mkKey ((tile k - (delta - offset k) / size) mod n)
        (- ((delta - offset k) mod size)).

Arguments moved : simpl never.

Definition turns (size view pix : Z) : nat :=
  Z.to_nat ((view - pix + size - 1) / size).

Definition set_key_of {T : Type} (a : axis) (k : key) (w : PySlipQt T)
    : PySlipQt T :=
  match a with X => set_key_x k w | Y => set_key_y k w end.

(** The exception of a tile count that is absent or 0. *)
Definition count_error (num : option Z) : exn :=
  match num with
  | None => AttributeError
  | Some _ => ZeroDivisionError
  end.

(** More widgets for the examples: one as constructed, with no level
    accepted yet; one in the middle of a drag, the pointer last seen at
    [(x, y)]; and a grid whose tiles have no size. *)

Definition fresh (g : grid) : PySlipQt grid :=
  match init g 0 with
  | Some w => w
  | None => started g 0 0
  end.

Definition dragging (w : PySlipQt grid) (x y : Z) : PySlipQt grid :=
  set_start_drag (Some x) (Some y) (set_left_mbutton_down true w).

Definition flat : grid := mkGrid [0; 1; 2] 0 0 true true 4 4 0.

(** * Properties *)

(** ** The two loops of normalize_view, on one axis *)

Ltac run :=
  cbn [while_offset_pos while_offset_low tile_list];
  unfold move_key, bind, get, put, modify, ret, raise, attr, py_mod;
  cbn [tile offset].

Section KeyLoops.

Variables (size : Z) (num : option Z).

Lemma while_offset_pos_step fuel k :
  while_offset_pos (S fuel) size num k =
  if offset k >? 0 then
    match num with
    | None => Raised AttributeError (mkKey (tile k + 1) (offset k - size))
    | Some n =>
        if n =? 0
        then Raised ZeroDivisionError (mkKey (tile k + 1) (offset k - size))
        else while_offset_pos fuel size num
               (mkKey ((tile k + 1) mod n) (offset k - size))
    end
  else Returned tt k.
Proof.
  run. destruct (offset k >? 0); [|reflexivity].
  destruct num as [n|]; [|reflexivity].
  cbn. destruct (n =? 0); reflexivity.
Qed.

Lemma while_offset_low_step fuel k :
  while_offset_low (S fuel) size num k =
  if offset k <=? - size then
    match num with
    | None => Raised AttributeError (mkKey (tile k - 1) (offset k + size))
    | Some n =>
        if n =? 0
        then Raised ZeroDivisionError (mkKey (tile k - 1) (offset k + size))
        else while_offset_low fuel size num
               (mkKey ((tile k - 1 + n) mod n) (offset k + size))
    end
  else Returned tt k.
Proof.
  run. destruct (offset k <=? - size); [|reflexivity].
  destruct num as [n|]; [|reflexivity].
  cbn. destruct (n =? 0); reflexivity.
Qed.

(** Each turn of a loop moves the offset by [size]; with [1 <= size] the
    first loop is over after [ceil (offset / size)] turns and the second
    after [floor (- offset / size)]. *)
Lemma while_offset_pos_terminates :
  1 <= size ->
  forall fuel k,
    Z.max 0 (offset k) + size <= Z.of_nat fuel * size ->
    while_offset_pos fuel size num k <> OutOfFuel.
Proof.
  intros Hs fuel. induction fuel as [|fuel IH]; intros k Hb.
  - exfalso. cbn in Hb. lia.
  - rewrite while_offset_pos_step.
    destruct (Z.gtb_spec (offset k) 0) as [Hpos|Hle]; [|discriminate].
    destruct num as [n|]; [|discriminate].
    destruct (n =? 0); [discriminate|].
    apply IH. cbn [offset]. rewrite Nat2Z.inj_succ in Hb.
    assert (1 <= Z.of_nat fuel) by nia. nia.
Qed.

Lemma while_offset_low_terminates :
  1 <= size ->
  forall fuel k,
    (0 < fuel)%nat ->
    - offset k < Z.of_nat fuel * size ->
    while_offset_low fuel size num k <> OutOfFuel.
Proof.
  intros Hs fuel. induction fuel as [|fuel IH]; intros k Hf Hb.
  - exfalso. lia.
  - rewrite while_offset_low_step.
    destruct (Z.leb_spec (offset k) (- size)) as [Hlow|Hok]; [|discriminate].
    destruct num as [n|]; [|discriminate].
    destruct (n =? 0); [discriminate|].
    rewrite Nat2Z.inj_succ in Hb.
    assert (1 <= Z.of_nat fuel) by nia.
    apply IH; [lia|]. cbn [offset]. nia.
Qed.

(** Where the first loop leaves the offset when it is left normally:
    untouched, or in the last tile below 0. *)
Lemma while_offset_pos_offset :
  forall fuel k k',
    while_offset_pos fuel size num k = Returned tt k' ->
    offset k' <= 0 /\ (k' = k \/ - size < offset k').
Proof.
  induction fuel as [|fuel IH]; intros k k' E; [discriminate|].
  rewrite while_offset_pos_step in E.
  destruct (Z.gtb_spec (offset k) 0) as [Hpos|Hle].
  - destruct num as [n|]; [|discriminate].
    destruct (n =? 0); [discriminate|].
    apply IH in E. cbn [offset] in E.
    destruct E as [E1 [->|E2]]; cbn [offset] in *; split; auto; right; lia.
  - injection E as <-. auto.
Qed.

Lemma while_offset_low_offset :
  forall fuel k k',
    while_offset_low fuel size num k = Returned tt k' ->
    - size < offset k' /\ (k' = k \/ offset k' <= 0).
Proof.
  induction fuel as [|fuel IH]; intros k k' E; [discriminate|].
  rewrite while_offset_low_step in E.
  destruct (Z.leb_spec (offset k) (- size)) as [Hlow|Hok].
  - destruct num as [n|]; [|discriminate].
    destruct (n =? 0); [discriminate|].
    apply IH in E. cbn [offset] in E.
    destruct E as [E1 [->|E2]]; cbn [offset] in *; split; auto; right; lia.
  - injection E as <-. auto.
Qed.

Lemma move_key_terminates :
  1 <= size ->
  forall fuel delta k,
    Z.abs (offset k - delta) + size <= Z.of_nat fuel * size ->
    move_key fuel delta size num k <> OutOfFuel.
Proof.
  intros Hs fuel delta k Hb. unfold move_key, bind, modify.
  set (k0 := mkKey (tile k) (offset k - delta)).
  destruct (while_offset_pos fuel size num k0) as [[] k1| |] eqn:E1.
  - apply while_offset_pos_offset in E1. destruct E1 as [Hle Hk1].
    assert (1 <= Z.of_nat fuel) by nia.
    apply while_offset_low_terminates; [assumption|lia|].
    destruct Hk1 as [->|Hk1]; [subst k0; cbn [offset]; lia | nia].
  - discriminate.
  - exfalso. revert E1. apply while_offset_pos_terminates; [assumption|].
    subst k0. cbn [offset]. lia.
Qed.

End KeyLoops.

(** With the tile count there and not 0 the loops do not raise, and what
    they return has a closed form: [j] turns. *)
Section KeyLoopsCounted.

Variables (size n : Z).
Hypothesis n_nonzero : n <> 0.

Lemma while_offset_pos_spec :
  forall fuel k,
    match while_offset_pos fuel size (Some n) k with
    | Returned _ k' =>
        exists j, 0 <= j /\ (j = 0 <-> offset k <= 0)
          /\ tile k' = (if j =? 0 then tile k else (tile k + j) mod n)
          /\ offset k' = offset k - j * size
    | Raised _ _ => False
    | OutOfFuel => True
    end.
Proof.
  induction fuel as [|fuel IH]; intros k; [exact I|].
  rewrite while_offset_pos_step.
  destruct (Z.gtb_spec (offset k) 0) as [Hpos|Hle].
  - destruct (Z.eqb_spec n 0) as [|_]; [contradiction|].
    specialize (IH (mkKey ((tile k + 1) mod n) (offset k - size))).
    destruct (while_offset_pos fuel size (Some n) _) as [[] k'| |];
      [|assumption|exact I].
    destruct IH as (j & Hj & Hj0 & Ht & Ho). cbn [tile offset] in *.
    exists (j + 1). repeat split; try lia.
    destruct (Z.eqb_spec (j + 1) 0); [lia|].
    rewrite Ht. destruct (Z.eqb_spec j 0) as [->|_]; [reflexivity|].
    rewrite Z.add_mod_idemp_l by assumption. f_equal. lia.
  - exists 0. cbn. repeat split; lia.
Qed.

Lemma while_offset_low_spec :
  forall fuel k,
    match while_offset_low fuel size (Some n) k with
    | Returned _ k' =>
        exists j, 0 <= j /\ (j = 0 <-> - size < offset k)
          /\ tile k' = (if j =? 0 then tile k else (tile k - j) mod n)
          /\ offset k' = offset k + j * size
    | Raised _ _ => False
    | OutOfFuel => True
    end.
Proof.
  induction fuel as [|fuel IH]; intros k; [exact I|].
  rewrite while_offset_low_step.
  destruct (Z.leb_spec (offset k) (- size)) as [Hlow|Hok].
  - destruct (Z.eqb_spec n 0) as [|_]; [contradiction|].
    specialize (IH (mkKey ((tile k - 1 + n) mod n) (offset k + size))).
    destruct (while_offset_low fuel size (Some n) _) as [[] k'| |];
      [|assumption|exact I].
    destruct IH as (j & Hj & Hj0 & Ht & Ho). cbn [tile offset] in *.
    exists (j + 1). repeat split; try lia.
    destruct (Z.eqb_spec (j + 1) 0); [lia|].
    rewrite Ht.
    replace (tile k - 1 + n) with (tile k - 1 + 1 * n) by lia.
    rewrite Z.mod_add by assumption.
    destruct (Z.eqb_spec j 0) as [->|_]; [f_equal; lia|].
    rewrite Zminus_mod_idemp_l. f_equal. lia.
  - exists 0. cbn. repeat split; lia.
Qed.

(** Both loops: [K] tiles along the axis, forwards or backwards. *)
Lemma move_key_spec :
  forall fuel delta k,
    match move_key fuel delta size (Some n) k with
    | Returned _ k' =>
        exists K,
          tile k' = (if K =? 0 then tile k else (tile k + K) mod n)
          /\ offset k' = offset k - delta - K * size
          /\ - size < offset k' <= 0
    | Raised _ _ => False
    | OutOfFuel => True
    end.
Proof.
  intros fuel delta k. unfold move_key, bind, modify.
  set (k0 := mkKey (tile k) (offset k - delta)).
  pose proof (while_offset_pos_spec fuel k0) as P1.
  destruct (while_offset_pos fuel size (Some n) k0) as [[] k1| |] eqn:E1;
    [|assumption|exact I].
  pose proof (while_offset_low_spec fuel k1) as P2.
  destruct (while_offset_low fuel size (Some n) k1) as [[] k2| |] eqn:E2;
    [|assumption|exact I].
  apply while_offset_pos_offset in E1. apply while_offset_low_offset in E2.
  destruct P1 as (j1 & Hj1 & Hz1 & Ht1 & Ho1).
  destruct P2 as (j2 & Hj2 & Hz2 & Ht2 & Ho2).
  subst k0. cbn [tile offset] in *.
  destruct E1 as [Hle1 Hk1], E2 as [Hgt2 Hk2].
  destruct (Z.eqb_spec j1 0) as [->|Hn1].
  - exists (- j2). rewrite Ht2, Ht1, Ho2, Ho1.
    destruct (Z.eqb_spec j2 0) as [->|Hn2]; cbn.
    + repeat split; lia.
    + destruct (Z.eqb_spec (- j2) 0); [lia|].
      repeat split; try lia.
      destruct Hk2 as [->|Hk2]; lia.
  - assert (- size < offset k1).
    { destruct Hk1 as [->|Hk1]; cbn [offset] in *; lia. }
    assert (j2 = 0) as -> by (apply Hz2; assumption).
    exists j1. rewrite Ht2, Ht1, Ho2, Ho1. cbn.
    destruct (Z.eqb_spec j1 0); [lia|]. repeat split; lia.
Qed.

Lemma move_key_returns :
  1 <= size ->
  forall fuel delta k,
    Z.abs (offset k - delta) + size <= Z.of_nat fuel * size ->
    exists k', move_key fuel delta size (Some n) k = Returned tt k'.
Proof.
  intros Hs fuel delta k Hb.
  pose proof (move_key_spec fuel delta k) as P.
  pose proof (move_key_terminates size (Some n) Hs fuel delta k Hb) as Q.
  destruct (move_key fuel delta size (Some n) k) as [[] k'| |];
    [eexists; reflexivity|contradiction|congruence].
Qed.

End KeyLoopsCounted.

(** A tile count [K] with the offset in [(- size, 0]] is the only one. *)
Lemma tiles_moved_unique (size a K K' : Z) :
  - size < a - K * size <= 0 ->
  - size < a - K' * size <= 0 ->
  K = K'.
Proof. intros H1 H2. nia. Qed.

(** ** normalize_view on the widget *)

Section Normalize.

Context {T : Type} `{Tiles.t T}.

Implicit Types w : PySlipQt T.

Lemma set_key_x_same w : set_key_x (key_x w) w = w.
Proof. destruct w; reflexivity. Qed.

Lemma set_key_y_same w : set_key_y (key_y w) w = w.
Proof. destruct w; reflexivity. Qed.

(** The X part writes the X key tile and nothing else, also when it
    raises; so does the Y part for Y. *)
Lemma normalize_x_frame fuel delta_x w w' :
  final_state (normalize_x fuel delta_x w) = Some w' ->
  exists k, w' = set_key_x k w.
Proof.
  unfold normalize_x, bind, get, on_key, ret.
  destruct (truthy delta_x) as [dx|].
  - destruct (Tiles.wrap_x (tile_src w)).
    + destruct (move_key _ _ _ _ _) as [[] k|e k|]; cbn; intros E;
        try discriminate; injection E as <-; eauto.
    + cbn. intros E. injection E as <-. exists (key_x w).
      symmetry. apply set_key_x_same.
  - cbn. intros E. injection E as <-. exists (key_x w).
    symmetry. apply set_key_x_same.
Qed.

Lemma normalize_y_frame fuel delta_y w w' :
  final_state (normalize_y fuel delta_y w) = Some w' ->
  exists k, w' = set_key_y k w.
Proof.
  unfold normalize_y, bind, get, on_key, ret.
  destruct (truthy delta_y) as [dy|].
  - destruct (Tiles.wrap_y (tile_src w)).
    + destruct (move_key _ _ _ _ _) as [[] k|e k|]; cbn; intros E;
        try discriminate; injection E as <-; eauto.
    + cbn. intros E. injection E as <-. exists (key_y w).
      symmetry. apply set_key_y_same.
  - cbn. intros E. injection E as <-. exists (key_y w).
    symmetry. apply set_key_y_same.
Qed.

(** A final state of normalize_view is one of the X part that raised, or
    one of the Y part run after the X part returned. *)
Lemma normalize_view_final fuel delta_x delta_y w w' :
  final_state (normalize_view fuel delta_x delta_y w) = Some w' ->
  (exists e, normalize_x fuel delta_x w = Raised e w')
  \/ (exists w1, normalize_x fuel delta_x w = Returned tt w1
                 /\ final_state (normalize_y fuel delta_y w1) = Some w').
Proof.
  unfold normalize_view, bind.
  destruct (normalize_x fuel delta_x w) as [[] w1|e w1|]; cbn; intros E.
  - right. eauto.
  - left. injection E as <-. eauto.
  - discriminate.
Qed.

(** With the tile count of the axis there and not 0, the part of an axis
    does not raise; it leaves the widget alone or moves the key tile by
    [K] tiles. *)
Lemma normalize_x_spec fuel delta_x w n :
  num_tiles_x w = Some n -> n <> 0 ->
  match normalize_x fuel delta_x w with
  | Returned _ w' =>
      (w' = w /\ (truthy delta_x = None \/ Tiles.wrap_x (tile_src w) = false))
      \/ exists dx K,
           truthy delta_x = Some dx
           /\ Tiles.wrap_x (tile_src w) = true
           /\ w' = set_key_x
                     (mkKey (if K =? 0 then key_tile_left w
                             else (key_tile_left w + K) mod n)
                        (key_tile_xoffset w - dx - K * tile_size_x w)) w
           /\ - tile_size_x w
                < key_tile_xoffset w - dx - K * tile_size_x w <= 0
  | Raised _ _ => False
  | OutOfFuel => True
  end.
Proof.
  intros Hnum Hn. unfold normalize_x, bind, get, on_key, ret.
  destruct (truthy delta_x) as [dx|]; [|auto].
  destruct (Tiles.wrap_x (tile_src w)) eqn:Hw; [|auto].
  rewrite Hnum.
  pose proof (move_key_spec (tile_size_x w) n Hn fuel dx (key_x w)) as P.
  destruct (move_key fuel dx (tile_size_x w) (Some n) (key_x w))
    as [[] [t o]| |]; [|assumption|exact I].
  destruct P as (K & Ht & Ho & Hr). cbn [tile offset key_x] in *.
  right. exists dx, K. subst t. rewrite <- Ho. auto.
Qed.

Lemma normalize_y_spec fuel delta_y w n :
  num_tiles_y w = Some n -> n <> 0 ->
  match normalize_y fuel delta_y w with
  | Returned _ w' =>
      (w' = w /\ (truthy delta_y = None \/ Tiles.wrap_y (tile_src w) = false))
      \/ exists dy K,
           truthy delta_y = Some dy
           /\ Tiles.wrap_y (tile_src w) = true
           /\ w' = set_key_y
                     (mkKey (if K =? 0 then key_tile_top w
                             else (key_tile_top w + K) mod n)
                        (key_tile_yoffset w - dy - K * tile_size_y w)) w
           /\ - tile_size_y w
                < key_tile_yoffset w - dy - K * tile_size_y w <= 0
  | Raised _ _ => False
  | OutOfFuel => True
  end.
Proof.
  intros Hnum Hn. unfold normalize_y, bind, get, on_key, ret.
  destruct (truthy delta_y) as [dy|]; [|auto].
  destruct (Tiles.wrap_y (tile_src w)) eqn:Hw; [|auto].
  rewrite Hnum.
  pose proof (move_key_spec (tile_size_y w) n Hn fuel dy (key_y w)) as P.
  destruct (move_key fuel dy (tile_size_y w) (Some n) (key_y w))
    as [[] [t o]| |]; [|assumption|exact I].
  destruct P as (K & Ht & Ho & Hr). cbn [tile offset key_y] in *.
  right. exists dy, K. subst t. rewrite <- Ho. auto.
Qed.

(** Normalised stays normalised, part by part. *)
Lemma normalize_x_normalized fuel delta_x w n :
  normalized X n w ->
  match normalize_x fuel delta_x w with
  | Returned _ w' => normalized X n w'
  | Raised _ _ => False
  | OutOfFuel => True
  end.
Proof.
  intros (Hnum & Ho & Ht). cbn in Hnum, Ho, Ht.
  pose proof (normalize_x_spec fuel delta_x w n Hnum ltac:(lia)) as P.
  destruct (normalize_x fuel delta_x w) as [[] w'| |]; auto.
  destruct P as [[-> _]|(dx & K & _ & _ & -> & Hr)].
  - repeat split; cbn; auto; lia.
  - repeat split; cbn; try lia; auto;
      destruct (K =? 0); try lia; apply Z.mod_pos_bound; lia.
Qed.

Lemma normalize_y_normalized fuel delta_y w n :
  normalized Y n w ->
  match normalize_y fuel delta_y w with
  | Returned _ w' => normalized Y n w'
  | Raised _ _ => False
  | OutOfFuel => True
  end.
Proof.
  intros (Hnum & Ho & Ht). cbn in Hnum, Ho, Ht.
  pose proof (normalize_y_spec fuel delta_y w n Hnum ltac:(lia)) as P.
  destruct (normalize_y fuel delta_y w) as [[] w'| |]; auto.
  destruct P as [[-> _]|(dy & K & _ & _ & -> & Hr)].
  - repeat split; cbn; auto; lia.
  - repeat split; cbn; try lia; auto;
      destruct (K =? 0); try lia; apply Z.mod_pos_bound; lia.
Qed.

End Normalize.

Section NormalizeRuns.

Context {T : Type} `{Tiles.t T}.

Implicit Types w : PySlipQt T.

Lemma normalize_x_terminates fuel delta_x w :
  1 <= tile_size_x w ->
  (forall d, delta_x = Some d ->
     Z.abs (key_tile_xoffset w - d) + tile_size_x w
       <= Z.of_nat fuel * tile_size_x w) ->
  normalize_x fuel delta_x w <> OutOfFuel.
Proof.
  intros Hs Hb. unfold normalize_x, bind, get, on_key, ret.
  destruct delta_x as [d|]; cbn [truthy]; [|discriminate].
  destruct (d =? 0); [discriminate|].
  destruct (Tiles.wrap_x (tile_src w)); [|discriminate].
  pose proof (move_key_terminates (tile_size_x w) (num_tiles_x w) Hs
                fuel d (key_x w) (Hb d eq_refl)) as Q.
  destruct (move_key _ _ _ _ _); congruence.
Qed.

Lemma normalize_y_terminates fuel delta_y w :
  1 <= tile_size_y w ->
  (forall d, delta_y = Some d ->
     Z.abs (key_tile_yoffset w - d) + tile_size_y w
       <= Z.of_nat fuel * tile_size_y w) ->
  normalize_y fuel delta_y w <> OutOfFuel.
Proof.
  intros Hs Hb. unfold normalize_y, bind, get, on_key, ret.
  destruct delta_y as [d|]; cbn [truthy]; [|discriminate].
  destruct (d =? 0); [discriminate|].
  destruct (Tiles.wrap_y (tile_src w)); [|discriminate].
  pose proof (move_key_terminates (tile_size_y w) (num_tiles_y w) Hs
                fuel d (key_y w) (Hb d eq_refl)) as Q.
  destruct (move_key _ _ _ _ _); congruence.
Qed.

(** The whole method, with fuel for the longer of its two drags. *)
Lemma normalize_view_terminates fuel delta_x delta_y w :
  1 <= tile_size_x w -> 1 <= tile_size_y w ->
  (forall d, delta_x = Some d ->
     Z.abs (key_tile_xoffset w - d) + tile_size_x w
       <= Z.of_nat fuel * tile_size_x w) ->
  (forall d, delta_y = Some d ->
     Z.abs (key_tile_yoffset w - d) + tile_size_y w
       <= Z.of_nat fuel * tile_size_y w) ->
  normalize_view fuel delta_x delta_y w <> OutOfFuel.
Proof.
  intros Hx Hy Bx By. unfold normalize_view, bind.
  pose proof (normalize_x_terminates fuel delta_x w Hx Bx) as Q.
  destruct (normalize_x fuel delta_x w) as [[] w1|e w1|] eqn:E;
    [|discriminate|congruence].
  assert (F : final_state (normalize_x fuel delta_x w) = Some w1)
    by (rewrite E; reflexivity).
  apply normalize_x_frame in F. destruct F as [k ->].
  apply normalize_y_terminates; assumption.
Qed.

(** A drag of a normalised X key tile, in closed form; a drag of 0 is the
    case [K = 0]. *)
Lemma normalize_x_move fuel d w n :
  Tiles.wrap_x (tile_src w) = true ->
  normalized X n w ->
  Z.abs (key_tile_xoffset w - d) + tile_size_x w
    <= Z.of_nat fuel * tile_size_x w ->
  exists K,
    - tile_size_x w < key_tile_xoffset w - d - K * tile_size_x w <= 0
    /\ normalize_x fuel (Some d) w
       = Returned tt
           (set_key_x
              (mkKey (if K =? 0 then key_tile_left w
                      else (key_tile_left w + K) mod n)
                 (key_tile_xoffset w - d - K * tile_size_x w)) w).
Proof.
  intros Hw (Hnum & Ho & Ht) Hb. cbn in Hnum, Ho, Ht.
  pose proof (normalize_x_spec fuel (Some d) w n Hnum ltac:(lia)) as P.
  assert (Q : normalize_x fuel (Some d) w <> OutOfFuel).
  { apply normalize_x_terminates; [lia|]. intros d' E.
    injection E as <-. assumption. }
  destruct (normalize_x fuel (Some d) w) as [[] w'| |];
    [|contradiction|congruence].
  destruct P as [[-> [E|E]]|(dx & K & E & _ & -> & Hr)].
  - cbn in E. destruct (Z.eqb_spec d 0) as [->|]; [|discriminate].
    exists 0. cbn [Z.eqb].
    replace (key_tile_xoffset w - 0 - 0 * tile_size_x w)
      with (key_tile_xoffset w) by lia.
    split; [lia|]. f_equal. symmetry. apply set_key_x_same.
  - congruence.
  - cbn in E. destruct (d =? 0); [discriminate|]. injection E as <-.
    exists K. split; [assumption|reflexivity].
Qed.

End NormalizeRuns.

(** ** Claims about normalize_view and pan *)

Section NormalizeClaims.

Context {T : Type} `{Tiles.t T}.

Implicit Types w : PySlipQt T.

(** C1. Normalisation invariant: on a wrapping axis with a tile size and
    a tile count of at least 1, a key tile with [- size < offset <= 0] and
    [0 <= tile < count] has them again in every state that a call of
    normalize_view leaves, whatever the two deltas are; and a drag along
    that axis does return, given fuel for [|offset - delta| / size + 1]
    turns of a loop. *)
Theorem normalize_view_keeps_normalized
    (a : axis) (n : Z) w (fuel : nat) (delta_x delta_y : option Z) :
  wraps a w = true ->
  1 <= size_of a w ->
  1 <= n ->
  normalized a n w ->
  (forall w',
     final_state (normalize_view fuel delta_x delta_y w) = Some w' ->
     normalized a n w')
  /\ (forall delta,
        Z.abs (offset (key_of a w) - delta) + size_of a w
          <= Z.of_nat fuel * size_of a w ->
        exists w',
          normalize_along a fuel (Some delta) None w = Returned tt w'
          /\ normalized a n w').
Proof.
  intros Hw Hs Hn Hnorm. split.
  - intros w' F. apply normalize_view_final in F.
    destruct a.
    + pose proof (normalize_x_normalized fuel delta_x w n Hnorm) as P.
      destruct F as [[e E]|(w1 & E & F)]; rewrite E in P; [contradiction|].
      apply normalize_y_frame in F. destruct F as [k ->]. exact P.
    + destruct F as [[e E]|(w1 & E & F)].
      * assert (F : final_state (normalize_x fuel delta_x w) = Some w')
          by (rewrite E; reflexivity).
        apply normalize_x_frame in F. destruct F as [k ->]. exact Hnorm.
      * assert (F1 : final_state (normalize_x fuel delta_x w) = Some w1)
          by (rewrite E; reflexivity).
        apply normalize_x_frame in F1. destruct F1 as [k ->].
        pose proof (normalize_y_normalized fuel delta_y
                      (set_key_x k w) n Hnorm) as P.
        destruct (normalize_y fuel delta_y (set_key_x k w))
          as [[] w2|e w2|]; cbn in F; try discriminate;
          [injection F as <-; exact P | contradiction].
  - intros delta Hb. destruct a; cbn in Hb, Hs.
    + pose proof (normalize_x_normalized fuel (Some delta) w n Hnorm) as P.
      assert (Q : normalize_x fuel (Some delta) w <> OutOfFuel).
      { apply normalize_x_terminates; [assumption|].
        intros d E. injection E as <-. exact Hb. }
      cbn [normalize_along]. unfold normalize_view, bind.
      destruct (normalize_x fuel (Some delta) w) as [[] w1| |];
        [|contradiction|congruence].
      exists w1. split; [reflexivity|exact P].
    + pose proof (normalize_y_normalized fuel (Some delta) w n Hnorm) as P.
      assert (Q : normalize_y fuel (Some delta) w <> OutOfFuel).
      { apply normalize_y_terminates; [assumption|].
        intros d E. injection E as <-. exact Hb. }
      cbn [normalize_along]. unfold normalize_view, bind.
      cbn [normalize_x truthy ret].
      destruct (normalize_y fuel (Some delta) w) as [[] w1| |];
        [|contradiction|congruence].
      exists w1. split; [reflexivity|exact P].
Qed.

(** A pan with no vertical part is the X part and a repaint request. *)
Lemma pan_x fuel d w :
  pan fuel d 0 w =
  match normalize_x fuel (Some d) w with
  | Returned _ w' => Returned tt (count_update w')
  | Raised e w' => Raised e w'
  | OutOfFuel => OutOfFuel
  end.
Proof.
  unfold pan, normalize_view, bind.
  destruct (normalize_x fuel (Some d) w) as [[] w'| |]; reflexivity.
Qed.

(** C6. Pan composition: from a normalised key tile on a wrapping X axis,
    [pan a 0] followed by [pan b 0] returns, and so does [pan (a + b) 0],
    with the same level, key tiles and key offsets. *)
Theorem pan_composition (n : Z) w (fuel : nat) (a b : Z) :
  wraps X w = true ->
  normalized X n w ->
  Z.abs a + Z.abs b + 2 * tile_size_x w <= Z.of_nat fuel * tile_size_x w ->
  exists w1 w2 w3,
    pan fuel a 0 w = Returned tt w1
    /\ pan fuel b 0 w1 = Returned tt w2
    /\ pan fuel (a + b) 0 w = Returned tt w3
    /\ anchor w2 = anchor w3.
Proof.
  intros Hw Hnorm Hb. cbn in Hw.
  pose proof Hnorm as (Hnum & Ho & Ht). cbn in Hnum, Ho, Ht.
  destruct (normalize_x_move fuel a w n Hw Hnorm ltac:(lia))
    as (K1 & R1 & E1).
  pose proof (normalize_x_normalized fuel (Some a) w n Hnorm) as Hnorm1.
  rewrite E1 in Hnorm1.
  set (w1 := count_update
               (set_key_x
                  (mkKey (if K1 =? 0 then key_tile_left w
                          else (key_tile_left w + K1) mod n)
                     (key_tile_xoffset w - a - K1 * tile_size_x w)) w)).
  change (normalized X n w1) in Hnorm1.
  destruct (normalize_x_move fuel b w1 n Hw Hnorm1
              ltac:(subst w1; cbn; lia)) as (K2 & R2 & E2).
  destruct (normalize_x_move fuel (a + b) w n Hw Hnorm ltac:(lia))
    as (K3 & R3 & E3).
  rewrite !pan_x. rewrite E1, E3. fold w1.
  do 3 eexists. split; [reflexivity|].
  rewrite pan_x, E2. split; [reflexivity|]. split; [reflexivity|].
  subst w1. cbn in R2 |- *. unfold anchor, key_x, key_y. cbn.
  assert (K3 = K1 + K2).
  { apply (tiles_moved_unique (tile_size_x w) (key_tile_xoffset w - (a + b)));
      lia. }
  subst K3. f_equal; f_equal; f_equal; [|lia].
  destruct (Z.eqb_spec K1 0) as [->|N1];
    destruct (Z.eqb_spec K2 0) as [->|N2]; cbn.
  - reflexivity.
  - destruct (Z.eqb_spec K2 0); [lia|reflexivity].
  - rewrite Z.add_0_r. destruct (Z.eqb_spec K1 0); [lia|reflexivity].
  - rewrite Z.add_mod_idemp_l by lia. rewrite <- Z.add_assoc.
    destruct (Z.eqb_spec (K1 + K2) 0) as [->|]; [|reflexivity].
    rewrite Z.add_0_r. apply Z.mod_small. lia.
Qed.

(** C8. Bounded axis: with the wrap flag of an axis off, every state that
    normalize_view leaves has the key tile and key offset of that axis as
    they were; and a drag along that axis returns, with any fuel, and
    asks for one repaint. *)
Theorem bounded_axis_inert
    (a : axis) w (fuel : nat) (delta_x delta_y : option Z) :
  wraps a w = false ->
  (forall w',
     final_state (normalize_view fuel delta_x delta_y w) = Some w' ->
     key_of a w' = key_of a w)
  /\ (forall w',
        final_state ((normalize_view fuel delta_x delta_y ;; update) w)
          = Some w' ->
        key_of a w' = key_of a w)
  /\ (forall delta, normalize_along a fuel delta None w = Returned tt w).
Proof.
  intros Hw.
  assert (P : forall w',
             final_state (normalize_view fuel delta_x delta_y w) = Some w' ->
             key_of a w' = key_of a w).
  { intros w' F. apply normalize_view_final in F. destruct a; cbn in Hw.
    - assert (E : normalize_x fuel delta_x w = Returned tt w).
      { unfold normalize_x, bind, get, ret.
        destruct (truthy delta_x); [rewrite Hw|]; reflexivity. }
      rewrite E in F. destruct F as [[e F]|(w1 & F1 & F)]; [discriminate|].
      injection F1 as <-. apply normalize_y_frame in F.
      destruct F as [k ->]. reflexivity.
    - assert (E : forall w0, tile_src w0 = tile_src w ->
                    normalize_y fuel delta_y w0 = Returned tt w0).
      { intros w0 S0. unfold normalize_y, bind, get, ret.
        destruct (truthy delta_y); [rewrite S0, Hw|]; reflexivity. }
      destruct F as [[e F]|(w1 & F1 & F)].
      + assert (F' : final_state (normalize_x fuel delta_x w) = Some w')
          by (rewrite F; reflexivity).
        apply normalize_x_frame in F'. destruct F' as [k ->]. reflexivity.
      + assert (F' : final_state (normalize_x fuel delta_x w) = Some w1)
          by (rewrite F1; reflexivity).
        apply normalize_x_frame in F'. destruct F' as [k ->].
        rewrite E in F by reflexivity. injection F as <-. reflexivity. }
  split; [exact P|]. split.
  - intros w'. unfold bind, update, modify.
    destruct (normalize_view fuel delta_x delta_y w) as [[] w1|e w1|] eqn:E;
      cbn; intros F; try discriminate; injection F as <-.
    + rewrite <- (P w1 eq_refl). destruct a; reflexivity.
    + apply (P w1). reflexivity.
  - intros delta. destruct a; cbn in Hw; cbn [normalize_along];
      unfold normalize_view, normalize_x, normalize_y, bind, get, ret;
      cbn [truthy]; destruct (truthy delta); rewrite ?Hw; reflexivity.
Qed.

End NormalizeClaims.

(** C9. Termination of the two loops: for a tile size of at least 1, any
    delta, any key tile and any tile count (also none, or 0, where the
    first turn raises), lines 172-182 are over once the fuel allows
    [|offset - delta| / size + 1] turns: each turn moves the offset by
    exactly [size] (see [while_offset_pos_step], [while_offset_low_step]). *)
Theorem normalization_loops_terminate
    (size : Z) (num : option Z) (delta : Z) (k : key) (fuel : nat) :
  1 <= size ->
  (Z.to_nat (Z.abs (offset k - delta) / size) + 2 <= fuel)%nat ->
  move_key fuel delta size num k <> OutOfFuel.
Proof.
  intros Hs Hf. apply move_key_terminates; [assumption|].
  pose proof (Z.mod_pos_bound (Z.abs (offset k - delta)) size ltac:(lia)).
  pose proof (Z.div_mod (Z.abs (offset k - delta)) size ltac:(lia)).
  assert (0 <= Z.abs (offset k - delta) / size)
    by (apply Z.div_pos; lia).
  assert (Z.abs (offset k - delta) / size + 2 <= Z.of_nat fuel) by lia.
  nia.
Qed.

(** ** The tile lists of paintEvent *)

Section TileList.

Variables (wrap : bool) (num : option Z) (size view : Z).

Lemma tile_list_step fuel coord pix acc :
  tile_list (S fuel) wrap num size view coord pix acc =
  if pix <? view then
    match num with
    | None => Raised AttributeError (acc ++ [coord])
    | Some n =>
        if negb wrap && (coord >=? n - 1) then Returned tt (acc ++ [coord])
        else if n =? 0 then Raised ZeroDivisionError (acc ++ [coord])
        else tile_list fuel wrap num size view
               ((coord + 1) mod n) (pix + size) (acc ++ [coord])
    end
  else Returned tt acc.
Proof.
  run. destruct (pix <? view); [|reflexivity].
  destruct wrap, num as [n|]; cbn; try reflexivity.
  - destruct (n =? 0); reflexivity.
  - destruct (coord >=? n - 1); [reflexivity|].
    destruct (n =? 0); reflexivity.
Qed.

(** The pixel cursor advances by [size] a turn: with [1 <= size] the loop
    is over after [ceil ((view - pix) / size)] turns. *)
Lemma tile_list_terminates :
  1 <= size ->
  forall fuel coord pix acc,
    Z.max 0 (view - pix) + size <= Z.of_nat fuel * size ->
    tile_list fuel wrap num size view coord pix acc <> OutOfFuel.
Proof.
  intros Hs fuel. induction fuel as [|fuel IH]; intros coord pix acc Hb.
  - exfalso. cbn in Hb. lia.
  - rewrite tile_list_step.
    destruct (Z.ltb_spec pix view) as [Hlt|Hge]; [|discriminate].
    destruct num as [n|]; [|discriminate].
    destruct (negb wrap && (coord >=? n - 1)); [discriminate|].
    destruct (n =? 0); [discriminate|].
    rewrite Nat2Z.inj_succ in Hb.
    assert (1 <= Z.of_nat fuel) by nia.
    apply IH. nia.
Qed.

End TileList.

Section TileListCounted.

Variables (wrap : bool) (n size view : Z).
Hypothesis n_positive : 1 <= n.

(** A list of coordinates of the grid stays one, as far as the loop
    gets, when it starts on a coordinate of the grid. *)
Lemma tile_list_in_grid :
  forall fuel coord pix acc,
    Forall (fun c => 0 <= c < n) acc ->
    0 <= coord < n ->
    match tile_list fuel wrap (Some n) size view coord pix acc with
    | Returned _ l => Forall (fun c => 0 <= c < n) l
    | Raised _ _ => False
    | OutOfFuel => True
    end.
Proof.
  induction fuel as [|fuel IH]; intros coord pix acc Hacc Hc; [exact I|].
  rewrite tile_list_step.
  destruct (pix <? view); [|assumption].
  assert (Hacc' : Forall (fun c => 0 <= c < n) (acc ++ [coord])).
  { apply Forall_app. split; [assumption|]. constructor; auto. }
  destruct (negb wrap && (coord >=? n - 1)); [assumption|].
  destruct (Z.eqb_spec n 0); [lia|].
  apply IH; [assumption|]. apply Z.mod_pos_bound. lia.
Qed.

End TileListCounted.

Section PaintClaims.

Context {T : Type} `{Tiles.t T}.

Implicit Types w : PySlipQt T.

Lemma list_of_unfold (a : axis) fuel w :
  list_of a fuel w =
  match tile_list fuel (wraps a w) (num_of a w) (src_size_of a w)
          (view_of a w) (tile (key_of a w)) (offset (key_of a w)) [] with
  | Returned _ l => Returned l w
  | Raised e _ => Raised e w
  | OutOfFuel => OutOfFuel
  end.
Proof. destruct a; reflexivity. Qed.

(** C4, as the code has it.  With a view of 0 pixels along an axis, a
    tile count of at least 1 and the key offset in [[- size, 0]], the
    tile list of the axis is the key tile alone when the key offset is
    negative, and is empty when the key offset is 0: the loop tests
    [pix_start < view] before its first turn. *)
Theorem list_of_empty_view (a : axis) (n : Z) w (fuel : nat) :
  view_of a w = 0 ->
  num_of a w = Some n ->
  1 <= n ->
  - src_size_of a w <= offset (key_of a w) <= 0 ->
  (2 <= fuel)%nat ->
  list_of a fuel w
  = Returned (if offset (key_of a w) =? 0 then []
              else [tile (key_of a w)]) w.
Proof.
  intros Hv Hnum Hn Ho Hf. rewrite list_of_unfold, Hv, Hnum.
  destruct fuel as [|[|fuel]]; try lia.
  rewrite tile_list_step.
  destruct (Z.eqb_spec (offset (key_of a w)) 0) as [->|Hne]; [reflexivity|].
  destruct (Z.ltb_spec (offset (key_of a w)) 0); [|lia].
  destruct (negb (wraps a w) && _); [reflexivity|].
  destruct (Z.eqb_spec n 0); [lia|].
  rewrite tile_list_step.
  destruct (Z.ltb_spec (offset (key_of a w) + src_size_of a w) 0); [lia|].
  reflexivity.
Qed.

(** C7. Coverage: with tiles 256 pixels wide, a view 600 pixels wide and
    the key offset 0, the column list has the three entries of the pixel
    cursors 0, 256 and 512, on a wrapping X axis or with two more columns
    right of the key tile. *)
Theorem col_list_covers_600 (n : Z) w (fuel : nat) :
  Tiles.tile_size_x (tile_src w) = 256 ->
  view_width w = 600 ->
  key_tile_xoffset w = 0 ->
  num_tiles_x w = Some n ->
  1 <= n ->
  Tiles.wrap_x (tile_src w) = true
    \/ (0 <= key_tile_left w /\ key_tile_left w + 2 < n) ->
  (4 <= fuel)%nat ->
  exists cols,
    col_list fuel w = Returned cols w
    /\ length cols = 3%nat
    /\ cols = [key_tile_left w;
               (key_tile_left w + 1) mod n;
               ((key_tile_left w + 1) mod n + 1) mod n].
Proof.
  intros Hs Hv Ho Hnum Hn Hedge Hf.
  exists [key_tile_left w;
          (key_tile_left w + 1) mod n;
          ((key_tile_left w + 1) mod n + 1) mod n].
  split; [|split; reflexivity].
  change (col_list fuel w) with (list_of X fuel w).
  rewrite list_of_unfold. cbn [wraps num_of src_size_of view_of key_of].
  cbn [key_x tile offset]. rewrite Hs, Hv, Ho, Hnum.
  destruct fuel as [|[|[|[|fuel]]]]; try lia.
  assert (E1 : negb (Tiles.wrap_x (tile_src w))
               && (key_tile_left w >=? n - 1) = false).
  { destruct Hedge as [->|[? ?]]; [reflexivity|].
    apply andb_false_intro2. rewrite Z.geb_leb. apply Z.leb_gt. lia. }
  assert (E2 : negb (Tiles.wrap_x (tile_src w))
               && ((key_tile_left w + 1) mod n >=? n - 1) = false).
  { destruct Hedge as [->|[? ?]]; [reflexivity|].
    apply andb_false_intro2. rewrite Z.geb_leb. apply Z.leb_gt.
    rewrite Z.mod_small; lia. }
  assert (En : (n =? 0) = false) by (apply Z.eqb_neq; lia).
  rewrite tile_list_step. change (0 <? 600) with true. cbv iota.
  rewrite E1, En.
  rewrite tile_list_step. change (0 + 256 <? 600) with true. cbv iota.
  rewrite E2, En.
  rewrite tile_list_step. change (0 + 256 + 256 <? 600) with true. cbv iota.
  clear E1 E2.
  destruct (negb _ && _); [reflexivity|]. rewrite En.
  rewrite tile_list_step. reflexivity.
Qed.

(** C10. Coordinates of the grid only: with the key tile of an axis in
    [[0, count)], whatever the wrap flag, every entry of the tile list of
    that axis is in [[0, count)]; and with a tile size of at least 1 the
    list is returned, given fuel for [view / size + 1] turns. *)
Theorem list_of_in_grid (a : axis) (n : Z) w :
  num_of a w = Some n ->
  0 <= tile (key_of a w) < n ->
  (forall fuel l w',
     list_of a fuel w = Returned l w' ->
     Forall (fun c => 0 <= c < n) l)
  /\ (forall fuel,
        1 <= src_size_of a w ->
        Z.max 0 (view_of a w - offset (key_of a w)) + src_size_of a w
          <= Z.of_nat fuel * src_size_of a w ->
        exists l,
          list_of a fuel w = Returned l w
          /\ Forall (fun c => 0 <= c < n) l).
Proof.
  intros Hnum Hc.
  assert (P : forall fuel,
             match tile_list fuel (wraps a w) (Some n) (src_size_of a w)
                     (view_of a w) (tile (key_of a w))
                     (offset (key_of a w)) [] with
             | Returned _ l => Forall (fun c => 0 <= c < n) l
             | Raised _ _ => False
             | OutOfFuel => True
             end).
  { intros fuel. apply tile_list_in_grid; [lia|constructor|assumption]. }
  split.
  - intros fuel l w' E. rewrite list_of_unfold, Hnum in E.
    specialize (P fuel).
    destruct (tile_list _ _ _ _ _ _ _ _) as [[] l0| |];
      try discriminate. injection E as <- _. exact P.
  - intros fuel Hs Hb. rewrite list_of_unfold, Hnum.
    specialize (P fuel).
    pose proof (tile_list_terminates (wraps a w) (Some n) (src_size_of a w)
                  (view_of a w) Hs fuel (tile (key_of a w))
                  (offset (key_of a w)) [] Hb) as Q.
    destruct (tile_list _ _ _ _ _ _ _ _) as [[] l0| |];
      [eauto|contradiction|congruence].
Qed.

End PaintClaims.

(** ** zoom_level *)

Section ZoomClaims.

Context {T : Type} `{Tiles.t T}.

Implicit Types w : PySlipQt T.

(** C5. A rejected level: when [UseLevel] answers [False], zoom_level
    returns [False], does not raise, and the widget is as before, but for
    what the tile source did to itself: same level, same key tiles and key
    offsets, same tile counts, no repaint asked for. *)
Theorem zoom_level_rejected w (lvl : Z) (src' : T) :
  Tiles.UseLevel lvl (tile_src w) = Returned false src' ->
  zoom_level lvl w = Returned false (set_tile_src src' w)
  /\ anchor (set_tile_src src' w) = anchor w
  /\ num_tiles_x (set_tile_src src' w) = num_tiles_x w
  /\ num_tiles_y (set_tile_src src' w) = num_tiles_y w
  /\ updates (set_tile_src src' w) = updates w.
Proof.
  intros E. unfold zoom_level, bind, on_tile_src. rewrite E.
  repeat split.
Qed.

(** An accepted level is stored with its tile counts, and a repaint is
    asked for. *)
Lemma zoom_level_accepted w (lvl nx ny : Z) (src' : T) :
  Tiles.UseLevel lvl (tile_src w) = Returned true src' ->
  Tiles.GetInfo lvl src' = Some (nx, ny) ->
  zoom_level lvl w
  = Returned true
      (count_update (set_num_tiles nx ny (set_level lvl (set_tile_src src' w)))).
Proof.
  intros E G. unfold zoom_level, bind, on_tile_src, modify, get. rewrite E.
  cbn. rewrite G. reflexivity.
Qed.

End ZoomClaims.

(** ** The spec's two drags, on the 4 by 4 grid of 256 pixel tiles *)

(** C2. From key tile 0 at offset 0, [pan 300 0] leaves the offset -44
    and the key tile 3: the second loop counts the key tile down where
    the picture moved one tile up. *)
Theorem pan_300_key_tile (fuel : nat) :
  exists w',
    pan (2 + fuel) 300 0 (started world 600 400) = Returned tt w'
    /\ key_tile_left w' = 3
    /\ key_tile_xoffset w' = -44.
Proof. eexists. split; [reflexivity|]. split; reflexivity. Qed.

(** C3. From key tile 0 at offset 0, [pan (-50) 0] leaves the offset
    -206 and the key tile 1: the first loop counts the key tile up where
    the picture moved one tile down. *)
Theorem pan_minus_50_key_tile (fuel : nat) :
  exists w',
    pan (2 + fuel) (-50) 0 (started world 600 400) = Returned tt w'
    /\ key_tile_left w' = 1
    /\ key_tile_xoffset w' = -206.
Proof. eexists. split; [reflexivity|]. split; reflexivity. Qed.

(** What paintEvent makes of it.  After line 172 and before the loops the
    key tile 0 is at pixel -300, so that column 1 is painted at -44,
    column 2 at 212 and column 3 at 468; after the loops the columns at
    those pixels are 3, 0 and 1. *)
Lemma loops_change_the_picture :
  painted_columns
    (paintEvent 9 (set_key_x (mkKey 0 (-300)) (started world 600 256)))
  = [(-300, 0); (-44, 1); (212, 2); (468, 3)]
  /\ painted_columns
       ((pan 9 300 0 ;; paintEvent 9) (started world 600 256))
     = [(-44, 3); (212, 0); (468, 1)].
Proof. split; reflexivity. Qed.

(** ** An empty view *)

(** C4 as the spec has it fails on a widget that was just opened and
    resized to nothing: the view is 0 wide, the key offset is 0, and the
    column list is empty. *)
Lemma col_list_empty_at_start :
  view_width (started world 0 0) = 0
  /\ (forall fuel,
        col_list (S fuel) (started world 0 0)
        = Returned [] (started world 0 0))
  /\ ~ (exists fuel,
          col_list fuel (started world 0 0)
          = Returned [key_tile_left (started world 0 0)]
              (started world 0 0)).
Proof.
  split; [reflexivity|]. split; [reflexivity|].
  intros [[|fuel] E]; discriminate E.
Qed.

(** ** The theorems at work on the example grids *)

Ltac by_computation :=
  repeat match goal with
         | |- _ /\ _ => split
         | |- normalized _ _ _ => unfold normalized
         end;
  cbn; try reflexivity; try lia.

(** C1 on the wrapping grid: a drag of 300 right and 50 up. *)
Lemma normalize_view_keeps_normalized_witness :
  (forall w',
     final_state
       (normalize_view 5 (Some 300) (Some (-50)) (started world 600 400))
     = Some w' ->
     normalized X 4 w')
  /\ (forall delta,
        Z.abs (offset (key_of X (started world 600 400)) - delta)
          + size_of X (started world 600 400)
          <= Z.of_nat 5 * size_of X (started world 600 400) ->
        exists w',
          normalize_along X 5 (Some delta) None (started world 600 400)
          = Returned tt w'
          /\ normalized X 4 w').
Proof.
  apply (normalize_view_keeps_normalized X 4 (started world 600 400) 5
           (Some 300) (Some (-50))); by_computation.
Defined.

(** C6 on the wrapping grid: 300 pixels, then 400 more. *)
Lemma pan_composition_witness :
  exists w1 w2 w3,
    pan 5 300 0 (started world 600 400) = Returned tt w1
    /\ pan 5 400 0 w1 = Returned tt w2
    /\ pan 5 (300 + 400) 0 (started world 600 400) = Returned tt w3
    /\ anchor w2 = anchor w3.
Proof.
  apply (pan_composition 4 (started world 600 400) 5 300 400);
    by_computation.
Defined.

(** C8 on the grid with edges. *)
Lemma bounded_axis_inert_witness :
  (forall w',
     final_state
       (normalize_view 5 (Some 300) (Some (-50)) (started sheet 600 400))
     = Some w' ->
     key_of X w' = key_of X (started sheet 600 400))
  /\ (forall w',
        final_state
          ((normalize_view 5 (Some 300) (Some (-50)) ;; update)
             (started sheet 600 400))
        = Some w' ->
        key_of X w' = key_of X (started sheet 600 400))
  /\ (forall delta,
        normalize_along X 5 delta None (started sheet 600 400)
        = Returned tt (started sheet 600 400)).
Proof.
  apply (bounded_axis_inert X (started sheet 600 400) 5
           (Some 300) (Some (-50))).
  reflexivity.
Defined.

(** C9: 1000 pixels in tiles of 256 take 3 turns, 5 units of fuel do. *)
Lemma normalization_loops_terminate_witness :
  move_key 5 1000 256 (Some 4) (mkKey 0 0) <> OutOfFuel.
Proof.
  apply (normalization_loops_terminate 256 (Some 4) 1000 (mkKey 0 0) 5).
  - lia.
  - vm_compute. lia.
Defined.

(** C4 as amended, on a view of no width with the key tile 44 pixels
    out of it. *)
Lemma list_of_empty_view_witness :
  list_of X 2 (set_key_x (mkKey 3 (-44)) (started world 0 400))
  = Returned [3] (set_key_x (mkKey 3 (-44)) (started world 0 400)).
Proof.
  apply (list_of_empty_view X 4
           (set_key_x (mkKey 3 (-44)) (started world 0 400)) 2);
    by_computation.
Defined.

(** C7 on the grid with edges: columns 0, 1 and 2 of 4. *)
Lemma col_list_covers_600_witness :
  exists cols,
    col_list 4 (started sheet 600 400)
    = Returned cols (started sheet 600 400)
    /\ length cols = 3%nat
    /\ cols = [key_tile_left (started sheet 600 400);
               (key_tile_left (started sheet 600 400) + 1) mod 4;
               ((key_tile_left (started sheet 600 400) + 1) mod 4 + 1)
                 mod 4].
Proof.
  apply (col_list_covers_600 4 (started sheet 600 400) 4);
    by_computation.
Defined.

(** C10 on the rows of the wrapping grid. *)
Lemma list_of_in_grid_witness :
  (forall fuel l w',
     list_of Y fuel (started world 600 400) = Returned l w' ->
     Forall (fun c => 0 <= c < 4) l)
  /\ (forall fuel,
        1 <= src_size_of Y (started world 600 400) ->
        Z.max 0 (view_of Y (started world 600 400)
                 - offset (key_of Y (started world 600 400)))
          + src_size_of Y (started world 600 400)
          <= Z.of_nat fuel * src_size_of Y (started world 600 400) ->
        exists l,
          list_of Y fuel (started world 600 400)
          = Returned l (started world 600 400)
          /\ Forall (fun c => 0 <= c < 4) l).
Proof.
  apply (list_of_in_grid Y 4 (started world 600 400)); by_computation.
Defined.

(** C5: the grids have no level 7. *)
Lemma zoom_level_rejected_witness :
  zoom_level 7 (started sheet 600 400)
  = Returned false (set_tile_src sheet (started sheet 600 400))
  /\ anchor (set_tile_src sheet (started sheet 600 400))
     = anchor (started sheet 600 400)
  /\ num_tiles_x (set_tile_src sheet (started sheet 600 400))
     = num_tiles_x (started sheet 600 400)
  /\ num_tiles_y (set_tile_src sheet (started sheet 600 400))
     = num_tiles_y (started sheet 600 400)
  /\ updates (set_tile_src sheet (started sheet 600 400))
     = updates (started sheet 600 400).
Proof.
  apply (zoom_level_rejected (started sheet 600 400) 7 sheet).
  reflexivity.
Defined.

(** * Further properties *)

(** ** The drag in closed form *)

Lemma tiles_moved_closed (size a K : Z) :
  1 <= size ->
  - size < a - K * size <= 0 ->
  K = - ((- a) / size) /\ a - K * size = - ((- a) mod size).
Proof.
  intros Hs HK.
  pose proof (Z.div_mod (- a) size ltac:(lia)) as D.
  pose proof (Z.mod_pos_bound (- a) size ltac:(lia)) as B.
  assert (E : K = - ((- a) / size)).
  { apply (tiles_moved_unique size a); [assumption|]. lia. }
  split; [exact E|]. rewrite E. lia.
Qed.

Section Moved.

Variables (size n : Z).
Hypothesis size_positive : 1 <= size.
Hypothesis n_positive : 1 <= n.

Lemma move_key_moved fuel delta k :
  - size < offset k <= 0 ->
  0 <= tile k < n ->
  Z.abs (offset k - delta) + size <= Z.of_nat fuel * size ->
  move_key fuel delta size (Some n) k = Returned tt (moved size n delta k).
Proof.
  intros Ho Ht Hb.
  destruct (move_key_returns size n ltac:(lia) size_positive fuel delta k Hb)
    as [[t o] E].
  pose proof (move_key_spec size n ltac:(lia) fuel delta k) as P.
  rewrite E in P. destruct P as (K & HtK & HoK & Hr). cbn [tile offset] in *.
  rewrite HoK in Hr.
  destruct (tiles_moved_closed size (offset k - delta) K size_positive Hr)
    as [EK EO].
  rewrite E. unfold moved. f_equal.
  replace (delta - offset k) with (- (offset k - delta)) by lia.
  set (q := - (offset k - delta) / size) in *.
  f_equal; [|lia].
  rewrite HtK. destruct (Z.eqb_spec K 0) as [Z0|NZ].
  - replace q with 0 by lia. rewrite Z.sub_0_r.
    symmetry. apply Z.mod_small. assumption.
  - f_equal. lia.
Qed.

Lemma moved_normalized delta k :
  - size < offset (moved size n delta k) <= 0
  /\ 0 <= tile (moved size n delta k) < n.
Proof.
  unfold moved. cbn [tile offset].
  pose proof (Z.mod_pos_bound (delta - offset k) size ltac:(lia)).
  pose proof (Z.mod_pos_bound (tile k - (delta - offset k) / size) n
                ltac:(lia)).
  lia.
Qed.

Lemma moved_zero k :
  - size < offset k <= 0 ->
  0 <= tile k < n ->
  moved size n 0 k = k.
Proof.
  intros Ho Ht. destruct k as [t o]. unfold moved. cbn [tile offset] in *.
  rewrite Z.sub_0_l.
  rewrite (Z.mod_small (- o) size) by lia.
  rewrite (Z.div_small (- o) size) by lia.
  rewrite Z.sub_0_r, Z.mod_small by lia.
  f_equal. lia.
Qed.

Lemma moved_add a b k :
  moved size n b (moved size n a k) = moved size n (a + b) k.
Proof.
  unfold moved. cbn [tile offset].
  pose proof (Z.div_mod (a - offset k) size ltac:(lia)) as D.
  set (q := (a - offset k) / size) in *.
  set (r := (a - offset k) mod size) in *.
  replace (b - - r) with (b + r) by lia.
  replace (a + b - offset k) with (b + r + q * size) by lia.
  rewrite Z.div_add, Z.mod_add by lia.
  f_equal. rewrite Zminus_mod_idemp_l. f_equal. lia.
Qed.

Lemma moved_period m k :
  - size < offset k <= 0 ->
  0 <= tile k < n ->
  moved size n (m * n * size) k = k.
Proof.
  intros Ho Ht. destruct k as [t o]. unfold moved. cbn [tile offset] in *.
  replace (m * n * size - o) with (- o + m * n * size) by lia.
  rewrite Z.div_add, Z.mod_add by lia.
  rewrite (Z.mod_small (- o) size) by lia.
  rewrite (Z.div_small (- o) size) by lia.
  replace (t - (0 + m * n)) with (t + (- m) * n) by lia.
  rewrite Z.mod_add, Z.mod_small by lia.
  f_equal. lia.
Qed.

End Moved.

Section Drag.

Context {T : Type} `{Tiles.t T}.

Implicit Types w : PySlipQt T.

Lemma key_eta (k : key) : mkKey (tile k) (offset k) = k.
Proof. destruct k; reflexivity. Qed.

Lemma normalize_x_moved fuel d w n :
  Tiles.wrap_x (tile_src w) = true ->
  normalized X n w ->
  Z.abs (key_tile_xoffset w - d) + tile_size_x w
    <= Z.of_nat fuel * tile_size_x w ->
  normalize_x fuel (Some d) w
  = Returned tt (set_key_x (moved (tile_size_x w) n d (key_x w)) w).
Proof.
  intros Hw (Hnum & Ho & Ht) Hb. cbn in Hnum, Ho, Ht.
  unfold normalize_x. cbn [truthy].
  destruct (Z.eqb_spec d 0) as [->|Hd].
  - rewrite moved_zero by (cbn; lia). rewrite set_key_x_same. reflexivity.
  - unfold bind, get, on_key. rewrite Hw, Hnum.
    rewrite move_key_moved by (cbn; lia). reflexivity.
Qed.

Lemma normalize_y_moved fuel d w n :
  Tiles.wrap_y (tile_src w) = true ->
  normalized Y n w ->
  Z.abs (key_tile_yoffset w - d) + tile_size_y w
    <= Z.of_nat fuel * tile_size_y w ->
  normalize_y fuel (Some d) w
  = Returned tt (set_key_y (moved (tile_size_y w) n d (key_y w)) w).
Proof.
  intros Hw (Hnum & Ho & Ht) Hb. cbn in Hnum, Ho, Ht.
  unfold normalize_y. cbn [truthy].
  destruct (Z.eqb_spec d 0) as [->|Hd].
  - rewrite moved_zero by (cbn; lia). rewrite set_key_y_same. reflexivity.
  - unfold bind, get, on_key. rewrite Hw, Hnum.
    rewrite move_key_moved by (cbn; lia). reflexivity.
Qed.

Lemma normalize_along_moved (a : axis) fuel d w n :
  wraps a w = true ->
  normalized a n w ->
  Z.abs (offset (key_of a w) - d) + size_of a w
    <= Z.of_nat fuel * size_of a w ->
  normalize_along a fuel (Some d) None w
  = Returned tt (set_key_of a (moved (size_of a w) n d (key_of a w)) w).
Proof.
  intros Hw Hn Hb. destruct a; cbn [normalize_along set_key_of];
    unfold normalize_view, bind.
  - rewrite (normalize_x_moved fuel d w n Hw Hn Hb). reflexivity.
  - cbn [normalize_x truthy ret].
    rewrite (normalize_y_moved fuel d w n Hw Hn Hb). reflexivity.
Qed.

(** A pan on two wrapping axes, both key tiles normalised. *)
Lemma pan_moved fuel a b w nx ny :
  Tiles.wrap_x (tile_src w) = true ->
  Tiles.wrap_y (tile_src w) = true ->
  normalized X nx w ->
  normalized Y ny w ->
  Z.abs (key_tile_xoffset w - a) + tile_size_x w
    <= Z.of_nat fuel * tile_size_x w ->
  Z.abs (key_tile_yoffset w - b) + tile_size_y w
    <= Z.of_nat fuel * tile_size_y w ->
  pan fuel a b w
  = Returned tt
      (count_update
         (set_key_y (moved (tile_size_y w) ny b (key_y w))
            (set_key_x (moved (tile_size_x w) nx a (key_x w)) w))).
Proof.
  intros Hwx Hwy Hnx Hny Hbx Hby. unfold pan, normalize_view, bind.
  rewrite (normalize_x_moved fuel a w nx Hwx Hnx Hbx).
  rewrite (normalize_y_moved fuel b _ ny); [reflexivity|exact Hwy|exact Hny|exact Hby].
Qed.

(** X1. A drag in closed form.  On a wrapping axis with a normalised key
    tile, a drag of [d] pixels along the axis returns; the key offset
    becomes [- ((d - offset) mod size)] and the key tile
    [(tile - (d - offset) / size) mod count], with [/] rounding down; the
    rest of the widget, the key tile of the other axis too, is as it
    was. *)
Theorem drag_closed_form (a : axis) (n : Z) w (fuel : nat) (d : Z) :
  wraps a w = true ->
  normalized a n w ->
  Z.abs (offset (key_of a w) - d) + size_of a w
    <= Z.of_nat fuel * size_of a w ->
  exists w',
    normalize_along a fuel (Some d) None w = Returned tt w'
    /\ offset (key_of a w') = - ((d - offset (key_of a w)) mod size_of a w)
    /\ tile (key_of a w')
       = (tile (key_of a w) - (d - offset (key_of a w)) / size_of a w) mod n
    /\ w' = set_key_of a (key_of a w') w.
Proof.
  intros Hw Hn Hb. eexists. split.
  - apply normalize_along_moved; eassumption.
  - destruct a; repeat split.
Qed.

(** X2. Once around the map.  On a wrapping axis with a normalised key
    tile, a drag by a whole number of map widths, [m * count * size]
    pixels, returns the widget as it was. *)
Theorem drag_whole_map (a : axis) (n : Z) w (fuel : nat) (m : Z) :
  wraps a w = true ->
  normalized a n w ->
  Z.abs (offset (key_of a w) - m * n * size_of a w) + size_of a w
    <= Z.of_nat fuel * size_of a w ->
  normalize_along a fuel (Some (m * n * size_of a w)) None w = Returned tt w.
Proof.
  intros Hw Hn Hb. rewrite (normalize_along_moved a fuel _ w n Hw Hn Hb).
  destruct Hn as (_ & Ho & Ht).
  rewrite moved_period by lia.
  destruct a; cbn; [rewrite set_key_x_same|rewrite set_key_y_same];
    reflexivity.
Qed.

(** X3. Pans add up on both axes.  With both axes wrapping and both key
    tiles normalised, [pan a b] followed by [pan c d] and [pan (a + c)
    (b + d)] all return, and leave the same level, key tiles and key
    offsets. *)
Theorem pan_adds_up (nx ny : Z) w (fuel : nat) (a b c d : Z) :
  wraps X w = true ->
  wraps Y w = true ->
  normalized X nx w ->
  normalized Y ny w ->
  Z.abs a + Z.abs c + 2 * tile_size_x w <= Z.of_nat fuel * tile_size_x w ->
  Z.abs b + Z.abs d + 2 * tile_size_y w <= Z.of_nat fuel * tile_size_y w ->
  exists w1 w2 w3,
    pan fuel a b w = Returned tt w1
    /\ pan fuel c d w1 = Returned tt w2
    /\ pan fuel (a + c) (b + d) w = Returned tt w3
    /\ anchor w2 = anchor w3.
Proof.
  intros Hwx Hwy Hnx Hny Hbx Hby. cbn in Hwx, Hwy.
  pose proof Hnx as (Hnumx & Hox & Htx).
  pose proof Hny as (Hnumy & Hoy & Hty).
  cbn in Hnumx, Hox, Htx, Hnumy, Hoy, Hty.
  pose proof (moved_normalized (tile_size_x w) nx ltac:(lia) ltac:(lia)
                a (key_x w)) as [Mox Mtx].
  pose proof (moved_normalized (tile_size_y w) ny ltac:(lia) ltac:(lia)
                b (key_y w)) as [Moy Mty].
  rewrite (pan_moved fuel a b w nx ny), (pan_moved fuel (a + c) (b + d) w nx ny);
    try assumption; try lia.
  do 3 eexists. split; [reflexivity|]. split.
  - cbn in Mox, Mtx, Moy, Mty.
    apply (pan_moved fuel c d _ nx ny); try assumption;
      repeat split; cbn; try assumption; lia.
  - split; [reflexivity|]. unfold anchor. cbn.
    unfold key_x, key_y. cbn.
    rewrite !key_eta, !moved_add by lia. reflexivity.
Qed.

(** X4. There and back.  With both axes wrapping and both key tiles
    normalised, [pan a b] followed by [pan (- a) (- b)] returns with the
    level, the key tiles and the key offsets it started from. *)
Theorem pan_there_and_back (nx ny : Z) w (fuel : nat) (a b : Z) :
  wraps X w = true ->
  wraps Y w = true ->
  normalized X nx w ->
  normalized Y ny w ->
  2 * Z.abs a + 2 * tile_size_x w <= Z.of_nat fuel * tile_size_x w ->
  2 * Z.abs b + 2 * tile_size_y w <= Z.of_nat fuel * tile_size_y w ->
  exists w1 w2,
    pan fuel a b w = Returned tt w1
    /\ pan fuel (- a) (- b) w1 = Returned tt w2
    /\ anchor w2 = anchor w.
Proof.
  intros Hwx Hwy Hnx Hny Hbx Hby. cbn in Hwx, Hwy.
  pose proof Hnx as (Hnumx & Hox & Htx).
  pose proof Hny as (Hnumy & Hoy & Hty).
  cbn in Hnumx, Hox, Htx, Hnumy, Hoy, Hty.
  pose proof (moved_normalized (tile_size_x w) nx ltac:(lia) ltac:(lia)
                a (key_x w)) as [Mox Mtx].
  pose proof (moved_normalized (tile_size_y w) ny ltac:(lia) ltac:(lia)
                b (key_y w)) as [Moy Mty].
  rewrite (pan_moved fuel a b w nx ny); try assumption; try lia.
  do 2 eexists. split; [reflexivity|]. split.
  - cbn in Mox, Mtx, Moy, Mty.
    apply (pan_moved fuel (- a) (- b) _ nx ny); try assumption;
      repeat split; cbn; try assumption; lia.
  - unfold anchor. cbn. unfold key_x, key_y. cbn.
    rewrite !key_eta, !moved_add by lia.
    rewrite !Z.add_opp_diag_r.
    rewrite !moved_zero by (cbn; lia).
    reflexivity.
Qed.

End Drag.

(** ** Dragging with the mouse *)

Section Mouse.

Context {T : Type} `{Tiles.t T}.

Implicit Types w : PySlipQt T.

(** A move with a drag under way is the pan by the distance from the
    last pointer position, which is then replaced. *)
Lemma mouseMoveEvent_drag fuel x y w x0 y0 :
  left_mbutton_down w = true ->
  start_drag_x w = Some x0 -> x0 <> 0 ->
  start_drag_y w = Some y0 ->
  mouseMoveEvent fuel x y w
  = (pan fuel (x0 - x) (y0 - y) ;;
     modify (set_start_drag (Some x) (Some y))) w.
Proof.
  intros Hl Hx Hx0 Hy. unfold mouseMoveEvent at 1.
  unfold bind at 1. unfold get at 1. cbv beta iota. rewrite Hl, Hx, Hy.
  cbn [truthy]. destruct (Z.eqb_spec x0 0); [contradiction|]. reflexivity.
Qed.

Lemma mouseMoveEvent_moved fuel x y w x0 y0 nx ny :
  left_mbutton_down w = true ->
  start_drag_x w = Some x0 -> x0 <> 0 ->
  start_drag_y w = Some y0 ->
  Tiles.wrap_x (tile_src w) = true ->
  Tiles.wrap_y (tile_src w) = true ->
  normalized X nx w ->
  normalized Y ny w ->
  Z.abs (key_tile_xoffset w - (x0 - x)) + tile_size_x w
    <= Z.of_nat fuel * tile_size_x w ->
  Z.abs (key_tile_yoffset w - (y0 - y)) + tile_size_y w
    <= Z.of_nat fuel * tile_size_y w ->
  mouseMoveEvent fuel x y w
  = Returned tt
      (set_start_drag (Some x) (Some y)
         (count_update
            (set_key_y (moved (tile_size_y w) ny (y0 - y) (key_y w))
               (set_key_x (moved (tile_size_x w) nx (x0 - x) (key_x w))
                  w)))).
Proof.
  intros Hl Hx Hx0 Hy Hwx Hwy Hnx Hny Hbx Hby.
  rewrite (mouseMoveEvent_drag fuel x y w x0 y0) by assumption.
  unfold bind.
  rewrite (pan_moved fuel (x0 - x) (y0 - y) w nx ny) by assumption.
  reflexivity.
Qed.

(** X5. A drag depends on its two ends only.  With the left button down
    and a drag under way from [(x0, y0)], both axes wrapping and both key
    tiles normalised, a move to [(x1, y1)] followed by a move to
    [(x2, y2)] and the move to [(x2, y2)] alone all return, and leave the
    same level, key tiles, key offsets and last pointer position;
    provided [x0] and [x1] are not 0. *)
Theorem drag_depends_on_ends
    (nx ny : Z) w (fuel : nat) (x0 y0 x1 y1 x2 y2 : Z) :
  left_mbutton_down w = true ->
  start_drag_x w = Some x0 -> x0 <> 0 ->
  start_drag_y w = Some y0 ->
  x1 <> 0 ->
  wraps X w = true ->
  wraps Y w = true ->
  normalized X nx w ->
  normalized Y ny w ->
  Z.abs (x0 - x1) + Z.abs (x1 - x2) + 2 * tile_size_x w
    <= Z.of_nat fuel * tile_size_x w ->
  Z.abs (y0 - y1) + Z.abs (y1 - y2) + 2 * tile_size_y w
    <= Z.of_nat fuel * tile_size_y w ->
  exists w1 w2 w3,
    mouseMoveEvent fuel x1 y1 w = Returned tt w1
    /\ mouseMoveEvent fuel x2 y2 w1 = Returned tt w2
    /\ mouseMoveEvent fuel x2 y2 w = Returned tt w3
    /\ anchor w2 = anchor w3
    /\ start_drag_x w2 = start_drag_x w3
    /\ start_drag_y w2 = start_drag_y w3.
Proof.
  intros Hl Hx Hx0 Hy Hx1 Hwx Hwy Hnx Hny Hbx Hby. cbn in Hwx, Hwy.
  pose proof Hnx as (Hnumx & Hox & Htx).
  pose proof Hny as (Hnumy & Hoy & Hty).
  cbn in Hnumx, Hox, Htx, Hnumy, Hoy, Hty.
  pose proof (moved_normalized (tile_size_x w) nx ltac:(lia) ltac:(lia)
                (x0 - x1) (key_x w)) as [Mox Mtx].
  pose proof (moved_normalized (tile_size_y w) ny ltac:(lia) ltac:(lia)
                (y0 - y1) (key_y w)) as [Moy Mty].
  cbn in Mox, Mtx, Moy, Mty.
  do 3 eexists. split; [|split; [|split]].
  - apply (mouseMoveEvent_moved fuel x1 y1 w x0 y0 nx ny);
      try assumption; lia.
  - apply (mouseMoveEvent_moved fuel x2 y2 _ x1 y1 nx ny);
      try assumption; try reflexivity;
      repeat split; cbn; try assumption; lia.
  - apply (mouseMoveEvent_moved fuel x2 y2 w x0 y0 nx ny);
      try assumption; lia.
  - unfold anchor. cbn. unfold key_x, key_y. cbn.
    rewrite !key_eta, !moved_add by lia.
    replace (x0 - x1 + (x1 - x2)) with (x0 - x2) by lia.
    replace (y0 - y1 + (y1 - y2)) with (y0 - y2) by lia.
    repeat split.
Qed.

(** X6. A drag loses the step that starts on pixel column 0.  With the
    left button down and the last pointer position on [x = 0], a move
    does not pan, whatever the distance: the widget is as before but for
    the new pointer position, no repaint is asked for, and no fuel is
    needed. *)
Theorem drag_from_column_0_is_dropped w (fuel : nat) (x y : Z) :
  left_mbutton_down w = true ->
  start_drag_x w = Some 0 ->
  mouseMoveEvent fuel x y w
  = Returned tt (set_start_drag (Some x) (Some y) w).
Proof.
  intros Hl Hx. unfold mouseMoveEvent, bind, get, modify.
  rewrite Hl, Hx. reflexivity.
Qed.

(** X7. Releasing the left button ends the drag.  After the release a
    move changes nothing, with any fuel; and after a release and a new
    press, the first move only records the pointer position: the key
    tiles, the key offsets and the count of repaint requests are those
    from before the release. *)
Theorem release_ends_drag w (fuel : nat) (x y : Z) :
  (mouseReleaseEvent LeftButton ;; mouseMoveEvent fuel x y) w
  = mouseReleaseEvent LeftButton w
  /\ exists w',
       (mouseReleaseEvent LeftButton ;; mousePressEvent LeftButton ;;
        mouseMoveEvent fuel x y) w = Returned tt w'
       /\ anchor w' = anchor w
       /\ updates w' = updates w
       /\ left_mbutton_down w' = true
       /\ start_drag_x w' = Some x
       /\ start_drag_y w' = Some y.
Proof.
  split; [reflexivity|]. eexists. split; [reflexivity|]. repeat split.
Qed.

End Mouse.

(** ** Drags that need no tile count, drags that miss it, and tiles of
    no size *)

Section Divergence.

Variables (size n : Z).
Hypothesis size_not_positive : size <= 0.
Hypothesis n_nonzero : n <> 0.

Lemma while_offset_pos_diverges :
  forall fuel k, 0 < offset k ->
    while_offset_pos fuel size (Some n) k = OutOfFuel.
Proof.
  induction fuel as [|fuel IH]; intros k Hk; [reflexivity|].
  rewrite while_offset_pos_step.
  destruct (Z.gtb_spec (offset k) 0); [|lia].
  destruct (Z.eqb_spec n 0); [contradiction|].
  apply IH. cbn. lia.
Qed.

Lemma while_offset_low_diverges :
  forall fuel k, offset k <= - size ->
    while_offset_low fuel size (Some n) k = OutOfFuel.
Proof.
  induction fuel as [|fuel IH]; intros k Hk; [reflexivity|].
  rewrite while_offset_low_step.
  destruct (Z.leb_spec (offset k) (- size)); [|lia].
  destruct (Z.eqb_spec n 0); [contradiction|].
  apply IH. cbn. lia.
Qed.

Lemma move_key_diverges fuel delta k :
  move_key fuel delta size (Some n) k = OutOfFuel.
Proof.
  unfold move_key, bind, modify.
  destruct (Z.lt_ge_cases 0 (offset k - delta)) as [Hpos|Hle].
  - rewrite while_offset_pos_diverges by (cbn; lia). reflexivity.
  - destruct fuel as [|fuel]; [reflexivity|].
    rewrite while_offset_pos_step. cbn [offset tile].
    destruct (Z.gtb_spec (offset k - delta) 0); [lia|].
    apply while_offset_low_diverges. cbn. lia.
Qed.

Lemma tile_list_diverges view :
  forall fuel coord pix acc, pix < view ->
    tile_list fuel true (Some n) size view coord pix acc = OutOfFuel.
Proof.
  induction fuel as [|fuel IH]; intros coord pix acc Hp; [reflexivity|].
  rewrite tile_list_step.
  destruct (Z.ltb_spec pix view); [|lia].
  cbn [negb andb]. destruct (Z.eqb_spec n 0); [contradiction|].
  apply IH. lia.
Qed.

End Divergence.

Section EdgeCases.

Context {T : Type} `{Tiles.t T}.

Implicit Types w : PySlipQt T.

(** What normalize_view is along one axis, the other argument [None]. *)
Lemma normalize_along_unfold (a : axis) fuel d w :
  d <> 0 ->
  wraps a w = true ->
  normalize_along a fuel (Some d) None w
  = match move_key fuel d (size_of a w) (num_of a w) (key_of a w) with
    | Returned _ k => Returned tt (set_key_of a k w)
    | Raised e k => Raised e (set_key_of a k w)
    | OutOfFuel => OutOfFuel
    end.
Proof.
  intros Hd Hw.
  destruct a; cbn in Hw; cbn [normalize_along];
    unfold normalize_view, normalize_x, normalize_y, bind, get, ret, on_key;
    cbn [truthy]; destruct (Z.eqb_spec d 0); try contradiction;
    rewrite Hw; cbn [size_of num_of key_of set_key_of];
    destruct (move_key _ _ _ _ _) as [[] k|e k|]; reflexivity.
Qed.

(** X8. A drag inside the key tile needs no tile count.  On a wrapping
    axis, a drag that leaves the offset within [(- size, 0]] only shifts
    the offset: it returns with the key tile unchanged, whether a tile
    count is there or not, with a single unit of fuel. *)
Theorem drag_inside_tile (a : axis) w (fuel : nat) (d : Z) :
  wraps a w = true ->
  d <> 0 ->
  - size_of a w < offset (key_of a w) - d <= 0 ->
  (1 <= fuel)%nat ->
  normalize_along a fuel (Some d) None w
  = Returned tt
      (set_key_of a (mkKey (tile (key_of a w)) (offset (key_of a w) - d)) w).
Proof.
  intros Hw Hd Ho Hf. rewrite normalize_along_unfold by assumption.
  destruct fuel as [|fuel]; [lia|].
  unfold move_key, bind, modify.
  rewrite while_offset_pos_step. cbn [tile offset].
  destruct (Z.gtb_spec (offset (key_of a w) - d) 0); [lia|].
  rewrite while_offset_low_step. cbn [tile offset].
  destruct (Z.leb_spec (offset (key_of a w) - d) (- size_of a w)); [lia|].
  reflexivity.
Qed.

(** X9. A drag over a tile edge without a tile count.  On a wrapping
    axis whose tile count is absent (no level accepted yet) or 0, a drag
    that takes the offset out of [(- size, 0]] raises, [AttributeError]
    for the absent count and [ZeroDivisionError] for 0, and leaves the
    key tile half updated: the offset moved by the drag and by one tile,
    the key tile stepped by one and not wrapped. *)
Theorem drag_without_count (a : axis) w (fuel : nat) (d : Z) :
  wraps a w = true ->
  d <> 0 ->
  num_of a w = None \/ num_of a w = Some 0 ->
  ~ (- size_of a w < offset (key_of a w) - d <= 0) ->
  (1 <= fuel)%nat ->
  normalize_along a fuel (Some d) None w
  = Raised (count_error (num_of a w))
      (set_key_of a
         (if offset (key_of a w) - d >? 0
          then mkKey (tile (key_of a w) + 1)
                 (offset (key_of a w) - d - size_of a w)
          else mkKey (tile (key_of a w) - 1)
                 (offset (key_of a w) - d + size_of a w)) w).
Proof.
  intros Hw Hd Hnum Ho Hf. rewrite normalize_along_unfold by assumption.
  destruct fuel as [|fuel]; [lia|].
  unfold move_key, bind, modify.
  rewrite while_offset_pos_step. cbn [tile offset].
  destruct (Z.gtb_spec (offset (key_of a w) - d) 0).
  - destruct Hnum as [->| ->]; reflexivity.
  - rewrite while_offset_low_step. cbn [tile offset].
    destruct (Z.leb_spec (offset (key_of a w) - d) (- size_of a w)); [|lia].
    destruct Hnum as [->| ->]; reflexivity.
Qed.

(** X10. Tiles of no size: a drag never ends.  On a wrapping axis with a
    tile size of 0 or less and a tile count other than 0, a drag other
    than 0 along the axis runs out of any fuel: one of the two loops
    never leaves, its offset moving away from [(- size, 0]] or not at
    all. *)
Theorem drag_never_ends (a : axis) (n : Z) w (d : Z) :
  wraps a w = true ->
  d <> 0 ->
  size_of a w <= 0 ->
  num_of a w = Some n ->
  n <> 0 ->
  forall fuel, normalize_along a fuel (Some d) None w = OutOfFuel.
Proof.
  intros Hw Hd Hs Hnum Hn fuel.
  rewrite normalize_along_unfold by assumption.
  rewrite Hnum, move_key_diverges by assumption. reflexivity.
Qed.

(** X11. Tiles of no size: a paint never ends.  On a wrapping axis with
    a tile size of the tile source of 0 or less, a tile count other than
    0 and the key offset inside the view, the loop that lists the tiles
    of the axis runs out of any fuel, and so does paintEvent when the
    axis is X. *)
Theorem paint_never_ends (a : axis) (n : Z) w :
  wraps a w = true ->
  src_size_of a w <= 0 ->
  num_of a w = Some n ->
  n <> 0 ->
  offset (key_of a w) < view_of a w ->
  forall fuel,
    list_of a fuel w = OutOfFuel
    /\ (a = X -> paintEvent fuel w = OutOfFuel).
Proof.
  intros Hw Hs Hnum Hn Ho fuel.
  assert (E : list_of a fuel w = OutOfFuel).
  { rewrite list_of_unfold, Hw, Hnum.
    rewrite tile_list_diverges by assumption. reflexivity. }
  split; [exact E|]. intros ->. cbn [list_of] in E.
  unfold paintEvent, bind. rewrite E. reflexivity.
Qed.

End EdgeCases.

(** ** The tile lists in closed form *)

Section Turns.

Variables (size view : Z).
Hypothesis size_positive : 1 <= size.

Lemma turns_zero pix : view <= pix -> turns size view pix = 0%nat.
Proof.
  intros Hp. unfold turns.
  assert ((view - pix + size - 1) / size <= 0); [|lia].
  destruct (Z.eq_dec (view - pix + size - 1) 0) as [->|Hne].
  - rewrite Z.div_0_l by lia. lia.
  - destruct (Z.lt_ge_cases (view - pix + size - 1) 0).
    + pose proof (Z.div_lt_upper_bound (view - pix + size - 1) size 0
                    ltac:(lia) ltac:(lia)). lia.
    + rewrite Z.div_small by lia. lia.
Qed.

Lemma turns_step pix :
  pix < view -> turns size view pix = S (turns size view (pix + size)).
Proof.
  intros Hp. unfold turns.
  replace (view - pix + size - 1)
    with (view - (pix + size) + size - 1 + 1 * size) by lia.
  rewrite Z.div_add by lia.
  assert (0 <= (view - (pix + size) + size - 1) / size)
    by (apply Z.div_pos; lia).
  rewrite Z2Nat.inj_add by lia. cbn. lia.
Qed.

(** The tiles of [turns] turns reach the edge of the view, and the last
    of them starts before it. *)
Lemma turns_cover pix :
  view <= pix + Z.of_nat (turns size view pix) * size
  /\ ((0 < turns size view pix)%nat ->
      pix + (Z.of_nat (turns size view pix) - 1) * size < view).
Proof.
  destruct (Z.lt_ge_cases pix view) as [Hlt|Hge].
  - unfold turns.
    assert (0 <= (view - pix + size - 1) / size)
      by (apply Z.div_pos; lia).
    rewrite Z2Nat.id by lia.
    pose proof (Z.div_mod (view - pix + size - 1) size ltac:(lia)).
    pose proof (Z.mod_pos_bound (view - pix + size - 1) size ltac:(lia)).
    split; [|intros _]; nia.
  - rewrite turns_zero by lia. split; [|intros F]; lia.
Qed.

Variable n : Z.

Lemma tile_list_wrapping :
  forall fuel coord pix acc,
    0 <= coord < n ->
    (turns size view pix < fuel)%nat ->
    tile_list fuel true (Some n) size view coord pix acc
    = Returned tt
        (acc ++ map (fun i => (coord + Z.of_nat i) mod n)
                  (seq 0 (turns size view pix))).
Proof.
  induction fuel as [|fuel IH]; intros coord pix acc Hc Hf; [lia|].
  rewrite tile_list_step.
  destruct (Z.ltb_spec pix view) as [Hlt|Hge].
  - rewrite turns_step in Hf |- * by assumption.
    cbn [negb andb]. destruct (Z.eqb_spec n 0); [lia|].
    rewrite IH; [|apply Z.mod_pos_bound; lia|lia].
    rewrite <- app_assoc. cbn [seq map app].
    rewrite Z.add_0_r, (Z.mod_small coord n) by assumption.
    do 3 f_equal. rewrite <- seq_shift, map_map.
    apply map_ext. intros i. rewrite Z.add_mod_idemp_l by lia.
    f_equal. lia.
  - rewrite turns_zero by assumption. cbn. rewrite app_nil_r. reflexivity.
Qed.

Lemma tile_list_bounded :
  forall fuel coord pix acc,
    0 <= coord < n ->
    (turns size view pix < fuel)%nat ->
    tile_list fuel false (Some n) size view coord pix acc
    = Returned tt
        (acc ++ map (fun i => coord + Z.of_nat i)
                  (seq 0 (Nat.min (turns size view pix)
                            (Z.to_nat (n - coord))))).
Proof.
  induction fuel as [|fuel IH]; intros coord pix acc Hc Hf; [lia|].
  rewrite tile_list_step.
  destruct (Z.ltb_spec pix view) as [Hlt|Hge].
  - rewrite turns_step in Hf |- * by assumption.
    cbn [negb andb]. rewrite Z.geb_leb.
    destruct (Z.leb_spec (n - 1) coord) as [Hedge|Hin].
    + replace (Z.to_nat (n - coord)) with 1%nat by lia.
      rewrite Nat.min_comm. cbn. rewrite Z.add_0_r. reflexivity.
    + destruct (Z.eqb_spec n 0); [lia|].
      rewrite (Z.mod_small (coord + 1) n) by lia.
      rewrite IH by lia. rewrite <- app_assoc.
      replace (Z.to_nat (n - coord)) with (S (Z.to_nat (n - (coord + 1))))
        by lia.
      cbn [Nat.min seq map app]. rewrite Z.add_0_r.
      do 3 f_equal. rewrite <- seq_shift, map_map.
      apply map_ext. intros i. lia.
  - rewrite turns_zero by assumption. cbn. rewrite app_nil_r. reflexivity.
Qed.

End Turns.

Section PaintMore.

Context {T : Type} `{Tiles.t T}.

Implicit Types w : PySlipQt T.

(** X12. The tile list of a wrapping axis.  With the key tile inside the
    grid and a tile size of the tile source of at least 1, the list has
    one entry for each [size] pixels from the key offset up to the edge
    of the view, rounded up; entry [i] is [(key tile + i) mod count]; the
    tiles listed reach the edge of the view, and the last one starts
    before it. *)
Theorem list_of_wrapping (a : axis) (n : Z) w (fuel : nat) :
  wraps a w = true ->
  num_of a w = Some n ->
  0 <= tile (key_of a w) < n ->
  1 <= src_size_of a w ->
  (turns (src_size_of a w) (view_of a w) (offset (key_of a w)) < fuel)%nat ->
  let m := turns (src_size_of a w) (view_of a w) (offset (key_of a w)) in
  list_of a fuel w
  = Returned
      (map (fun i => (tile (key_of a w) + Z.of_nat i) mod n) (seq 0 m)) w
  /\ view_of a w <= offset (key_of a w) + Z.of_nat m * src_size_of a w
  /\ ((0 < m)%nat ->
      offset (key_of a w) + (Z.of_nat m - 1) * src_size_of a w
        < view_of a w).
Proof.
  intros Hw Hnum Ht Hs Hf m. split.
  - rewrite list_of_unfold, Hw, Hnum.
    rewrite tile_list_wrapping by assumption. reflexivity.
  - apply turns_cover. assumption.
Qed.

(** X13. The tile list of a bounded axis.  With the key tile inside the
    grid and a tile size of the tile source of at least 1, the list is
    the run of consecutive coordinates from the key tile, as many as the
    view asks for and no more than are left up to the last tile
    [count - 1]; it never wraps round to 0. *)
Theorem list_of_bounded (a : axis) (n : Z) w (fuel : nat) :
  wraps a w = false ->
  num_of a w = Some n ->
  0 <= tile (key_of a w) < n ->
  1 <= src_size_of a w ->
  (turns (src_size_of a w) (view_of a w) (offset (key_of a w)) < fuel)%nat ->
  let m := Nat.min
             (turns (src_size_of a w) (view_of a w) (offset (key_of a w)))
             (Z.to_nat (n - tile (key_of a w))) in
  list_of a fuel w
  = Returned (map (fun i => tile (key_of a w) + Z.of_nat i) (seq 0 m)) w
  /\ tile (key_of a w) + Z.of_nat m <= n.
Proof.
  intros Hw Hnum Ht Hs Hf m. split.
  - rewrite list_of_unfold, Hw, Hnum.
    rewrite tile_list_bounded by assumption. reflexivity.
  - subst m. lia.
Qed.

End PaintMore.

(** ** What paintEvent draws *)

Lemma draw_rows_length size_y xp yp xc rows :
  length (draw_rows size_y xp yp xc rows) = length rows.
Proof.
  revert yp. induction rows as [|yc rows IH]; intros yp; cbn; auto.
Qed.

Lemma draw_rows_nth size_y xp xc rows :
  forall yp j, (j < length rows)%nat ->
    nth_error (draw_rows size_y xp yp xc rows) j
    = Some (mkDraw xp (yp + Z.of_nat j * size_y) xc (nth j rows 0)).
Proof.
  induction rows as [|yc rows IH]; intros yp j Hj; cbn in Hj; [lia|].
  destruct j as [|j]; cbn [draw_rows nth_error nth].
  - do 2 f_equal. lia.
  - rewrite IH by lia. do 2 f_equal. lia.
Qed.

Lemma draw_cols_length size_x size_y yoffset rows cols :
  forall xp,
    length (draw_cols size_x size_y xp yoffset cols rows)
    = (length cols * length rows)%nat.
Proof.
  induction cols as [|xc cols IH]; intros xp; cbn; [reflexivity|].
  rewrite length_app, draw_rows_length, IH. reflexivity.
Qed.

Lemma draw_cols_nth size_x size_y yoffset rows cols :
  forall xp i j,
    (i < length cols)%nat -> (j < length rows)%nat ->
    nth_error (draw_cols size_x size_y xp yoffset cols rows)
      (i * length rows + j)
    = Some (mkDraw (xp + Z.of_nat i * size_x)
              (yoffset + Z.of_nat j * size_y)
              (nth i cols 0) (nth j rows 0)).
Proof.
  induction cols as [|xc cols IH]; intros xp i j Hi Hj; cbn in Hi; [lia|].
  cbn [draw_cols]. destruct i as [|i].
  - cbn [Nat.mul Nat.add nth].
    rewrite nth_error_app1 by (rewrite draw_rows_length; assumption).
    rewrite draw_rows_nth by assumption. do 2 f_equal. lia.
  - rewrite nth_error_app2 by (rewrite draw_rows_length; cbn; lia).
    rewrite draw_rows_length.
    replace (S i * length rows + j - length rows)%nat
      with (i * length rows + j)%nat by (cbn; lia).
    rewrite IH by lia. cbn [nth]. do 2 f_equal. lia.
Qed.

Section PaintDraws.

Context {T : Type} `{Tiles.t T}.

Implicit Types w : PySlipQt T.

(** X14. What is drawn, and where.  When the column list and the row
    list are returned, paintEvent returns too, leaves the widget alone
    and draws one tile for each column and row listed, column by column:
    the tile of the [i]-th column and [j]-th row at the pixel of the key
    offsets plus [i] tile widths and [j] tile heights of the widget. *)
Theorem paintEvent_draws w (fuel : nat) (cols rows : list Z) :
  col_list fuel w = Returned cols w ->
  row_list fuel w = Returned rows w ->
  exists draws,
    paintEvent fuel w = Returned draws w
    /\ length draws = (length cols * length rows)%nat
    /\ forall i j,
         (i < length cols)%nat -> (j < length rows)%nat ->
         nth_error draws (i * length rows + j)
         = Some (mkDraw (key_tile_xoffset w + Z.of_nat i * tile_size_x w)
                   (key_tile_yoffset w + Z.of_nat j * tile_size_y w)
                   (nth i cols 0) (nth j rows 0)).
Proof.
  intros Hc Hr. eexists. split; [|split].
  - unfold paintEvent, bind. rewrite Hc, Hr. reflexivity.
  - apply draw_cols_length.
  - intros i j Hi Hj. apply draw_cols_nth; assumption.
Qed.

(** X15. No paint before a level.  A widget can be constructed for any
    tile source with at least one level, and not for one with none; as
    constructed it has no tile counts, so that after a resize to a width
    of 1 pixel or more, with no zoom_level in between, paintEvent raises
    [AttributeError], whatever the wrap flags. *)
Theorem paint_before_zoom_level
    (src : T) (start_level vw vh : Z) (fuel : nat) :
  0 < vw ->
  (1 <= fuel)%nat ->
  (Tiles.levels src = [] -> init src start_level = None)
  /\ (Tiles.levels src <> [] ->
      exists w0,
        init src start_level = Some w0
        /\ anchor w0 = (start_level, mkKey 0 0, mkKey 0 0)
        /\ (resizeEvent vw vh ;; paintEvent fuel) w0
           = Raised AttributeError (set_view vw vh w0)).
Proof.
  intros Hv Hf. unfold init. split.
  - intros ->. reflexivity.
  - intros Hl. destruct (Tiles.levels src) as [|l ls]; [contradiction|].
    cbn [py_max py_min]. eexists. split; [reflexivity|].
    split; [reflexivity|].
    destruct fuel as [|fuel]; [lia|].
    unfold resizeEvent, recalc_wrap, paintEvent, col_list, bind, modify,
      get, ret, locals. cbn [set_view view_width key_tile_xoffset
      key_tile_left num_tiles_x tile_src].
    rewrite tile_list_step.
    destruct (Z.ltb_spec 0 vw); [reflexivity|lia].
Qed.

(** X16. The wheel.  A wheel event asks the tile source for the level
    one above the current one when the angle is negative, and one below
    otherwise (also for an angle of 0).  When the tile source answers,
    and has tile counts for a level it accepts, the event returns; the
    level is the new one if accepted and the old one if not, one repaint
    is asked for if accepted and none if not, and the key tiles and key
    offsets are as before in both cases. *)
Theorem wheelEvent_level w (angle : Z) (accepted : bool) (src' : T)
    (nx ny : Z) :
  let new_level := if angle <? 0 then level w + 1 else level w - 1 in
  Tiles.UseLevel new_level (tile_src w) = Returned accepted src' ->
  (accepted = true -> Tiles.GetInfo new_level src' = Some (nx, ny)) ->
  exists w',
    wheelEvent angle w = Returned tt w'
    /\ level w' = (if accepted then new_level else level w)
    /\ key_x w' = key_x w
    /\ key_y w' = key_y w
    /\ updates w' = (if accepted then S (updates w) else updates w)
    /\ num_tiles_x w' = (if accepted then Some nx else num_tiles_x w)
    /\ num_tiles_y w' = (if accepted then Some ny else num_tiles_y w).
Proof.
  intros new_level E G.
  unfold wheelEvent, use_level, zoom_level, bind, get, on_tile_src, modify,
    update, ret.
  fold new_level. rewrite E. destruct accepted.
  - cbn [tile_src set_level set_tile_src]. rewrite (G eq_refl).
    eexists. split; [reflexivity|]. repeat split.
  - eexists. split; [reflexivity|]. repeat split.
Qed.

End PaintDraws.

(** ** The further properties at work on the example grids *)

(** X1: 300 pixels along X on the wrapping grid. *)
Lemma drag_closed_form_witness :
  exists w',
    normalize_along X 5 (Some 300) None (started world 600 400)
    = Returned tt w'
    /\ offset (key_of X w')
       = - ((300 - offset (key_of X (started world 600 400)))
            mod size_of X (started world 600 400))
    /\ tile (key_of X w')
       = (tile (key_of X (started world 600 400))
          - (300 - offset (key_of X (started world 600 400)))
            / size_of X (started world 600 400)) mod 4
    /\ w' = set_key_of X (key_of X w') (started world 600 400).
Proof.
  apply (drag_closed_form X 4 (started world 600 400) 5 300);
    by_computation.
Defined.

(** X2: once around the 4 tiles of 256 pixels. *)
Lemma drag_whole_map_witness :
  normalize_along X 6
    (Some (1 * 4 * size_of X (started world 600 400))) None
    (started world 600 400)
  = Returned tt (started world 600 400).
Proof.
  apply (drag_whole_map X 4 (started world 600 400) 6 1); by_computation.
Defined.

(** X3 *)
Lemma pan_adds_up_witness :
  exists w1 w2 w3,
    pan 5 300 (-50) (started world 600 400) = Returned tt w1
    /\ pan 5 400 100 w1 = Returned tt w2
    /\ pan 5 (300 + 400) (-50 + 100) (started world 600 400)
       = Returned tt w3
    /\ anchor w2 = anchor w3.
Proof.
  apply (pan_adds_up 4 4 (started world 600 400) 5 300 (-50) 400 100);
    by_computation.
Defined.

(** X4 *)
Lemma pan_there_and_back_witness :
  exists w1 w2,
    pan 5 300 (-50) (started world 600 400) = Returned tt w1
    /\ pan 5 (- 300) (- -50) w1 = Returned tt w2
    /\ anchor w2 = anchor (started world 600 400).
Proof.
  apply (pan_there_and_back 4 4 (started world 600 400) 5 300 (-50));
    by_computation.
Defined.

(** X5: from (100, 100) by way of (40, 120) to (500, 90). *)
Lemma drag_depends_on_ends_witness :
  exists w1 w2 w3,
    mouseMoveEvent 5 40 120 (dragging (started world 600 400) 100 100)
    = Returned tt w1
    /\ mouseMoveEvent 5 500 90 w1 = Returned tt w2
    /\ mouseMoveEvent 5 500 90 (dragging (started world 600 400) 100 100)
       = Returned tt w3
    /\ anchor w2 = anchor w3
    /\ start_drag_x w2 = start_drag_x w3
    /\ start_drag_y w2 = start_drag_y w3.
Proof.
  apply (drag_depends_on_ends 4 4
           (dragging (started world 600 400) 100 100) 5
           100 100 40 120 500 90); by_computation.
Defined.

(** X6: the pointer was last seen on the left edge. *)
Lemma drag_from_column_0_is_dropped_witness :
  mouseMoveEvent 5 300 7 (dragging (started world 600 400) 0 7)
  = Returned tt
      (set_start_drag (Some 300) (Some 7)
         (dragging (started world 600 400) 0 7)).
Proof.
  apply (drag_from_column_0_is_dropped
           (dragging (started world 600 400) 0 7) 5 300 7); reflexivity.
Defined.

(** X8: 100 pixels on a widget that has no tile counts. *)
Lemma drag_inside_tile_witness :
  normalize_along X 1 (Some 100) None (fresh world)
  = Returned tt
      (set_key_of X
         (mkKey (tile (key_of X (fresh world)))
            (offset (key_of X (fresh world)) - 100)) (fresh world)).
Proof.
  apply (drag_inside_tile X (fresh world) 1 100); by_computation.
Defined.

(** X9: 300 pixels on a widget that has no tile counts. *)
Lemma drag_without_count_witness :
  normalize_along X 1 (Some 300) None (fresh world)
  = Raised (count_error (num_of X (fresh world)))
      (set_key_of X
         (if offset (key_of X (fresh world)) - 300 >? 0
          then mkKey (tile (key_of X (fresh world)) + 1)
                 (offset (key_of X (fresh world)) - 300
                  - size_of X (fresh world))
          else mkKey (tile (key_of X (fresh world)) - 1)
                 (offset (key_of X (fresh world)) - 300
                  + size_of X (fresh world))) (fresh world)).
Proof.
  apply (drag_without_count X (fresh world) 1 300); try (by_computation; fail).
  left. reflexivity.
Defined.

(** X10 *)
Lemma drag_never_ends_witness :
  normalize_along X 1000 (Some 300) None (started flat 600 400)
  = OutOfFuel.
Proof.
  apply (drag_never_ends X 4 (started flat 600 400) 300); by_computation.
Defined.

(** X11 *)
Lemma paint_never_ends_witness :
  list_of X 1000 (started flat 600 400) = OutOfFuel
  /\ (X = X -> paintEvent 1000 (started flat 600 400) = OutOfFuel).
Proof.
  apply (paint_never_ends X 4 (started flat 600 400)); by_computation.
Defined.

(** X12: the three columns of C7. *)
Lemma list_of_wrapping_witness :
  list_of X 4 (started world 600 400)
  = Returned
      (map (fun i => (tile (key_of X (started world 600 400))
                      + Z.of_nat i) mod 4)
         (seq 0 (turns (src_size_of X (started world 600 400))
                   (view_of X (started world 600 400))
                   (offset (key_of X (started world 600 400))))))
      (started world 600 400)
  /\ view_of X (started world 600 400)
     <= offset (key_of X (started world 600 400))
        + Z.of_nat (turns (src_size_of X (started world 600 400))
                      (view_of X (started world 600 400))
                      (offset (key_of X (started world 600 400))))
          * src_size_of X (started world 600 400)
  /\ ((0 < turns (src_size_of X (started world 600 400))
             (view_of X (started world 600 400))
             (offset (key_of X (started world 600 400))))%nat ->
      offset (key_of X (started world 600 400))
      + (Z.of_nat (turns (src_size_of X (started world 600 400))
                     (view_of X (started world 600 400))
                     (offset (key_of X (started world 600 400)))) - 1)
        * src_size_of X (started world 600 400)
      < view_of X (started world 600 400)).
Proof.
  apply (list_of_wrapping X 4 (started world 600 400) 4).
  - reflexivity.
  - reflexivity.
  - cbn. lia.
  - cbn. lia.
  - vm_compute. lia.
Defined.

(** X13: a view of 2000 pixels on the 4 columns of the grid with
    edges. *)
Lemma list_of_bounded_witness :
  list_of X 9 (started sheet 2000 400)
  = Returned
      (map (fun i => tile (key_of X (started sheet 2000 400)) + Z.of_nat i)
         (seq 0 (Nat.min
                   (turns (src_size_of X (started sheet 2000 400))
                      (view_of X (started sheet 2000 400))
                      (offset (key_of X (started sheet 2000 400))))
                   (Z.to_nat (4 - tile (key_of X (started sheet 2000 400)))))))
      (started sheet 2000 400)
  /\ tile (key_of X (started sheet 2000 400))
     + Z.of_nat
         (Nat.min
            (turns (src_size_of X (started sheet 2000 400))
               (view_of X (started sheet 2000 400))
               (offset (key_of X (started sheet 2000 400))))
            (Z.to_nat (4 - tile (key_of X (started sheet 2000 400)))))
     <= 4.
Proof.
  apply (list_of_bounded X 4 (started sheet 2000 400) 9).
  - reflexivity.
  - reflexivity.
  - cbn. lia.
  - cbn. lia.
  - vm_compute. lia.
Defined.

(** X14: three columns and two rows. *)
Lemma paintEvent_draws_witness :
  exists draws,
    paintEvent 4 (started world 600 400)
    = Returned draws (started world 600 400)
    /\ length draws = (length [0; 1; 2] * length [0; 1])%nat
    /\ forall i j,
         (i < length [0; 1; 2])%nat -> (j < length [0; 1])%nat ->
         nth_error draws (i * length [0; 1] + j)
         = Some (mkDraw
                   (key_tile_xoffset (started world 600 400)
                    + Z.of_nat i * tile_size_x (started world 600 400))
                   (key_tile_yoffset (started world 600 400)
                    + Z.of_nat j * tile_size_y (started world 600 400))
                   (nth i [0; 1; 2] 0) (nth j [0; 1] 0)).
Proof.
  apply (paintEvent_draws (started world 600 400) 4 [0; 1; 2] [0; 1]);
    reflexivity.
Defined.

(** X15 *)
Lemma paint_before_zoom_level_witness :
  (Tiles.levels world = [] -> init world 0 = None)
  /\ (Tiles.levels world <> [] ->
      exists w0,
        init world 0 = Some w0
        /\ anchor w0 = (0, mkKey 0 0, mkKey 0 0)
        /\ (resizeEvent 600 400 ;; paintEvent 1) w0
           = Raised AttributeError (set_view 600 400 w0)).
Proof.
  apply (paint_before_zoom_level world 0 600 400 1); lia.
Defined.

(** X16: a notch up from level 0 of the wrapping grid. *)
Lemma wheelEvent_level_witness :
  exists w',
    wheelEvent (-120) (started world 600 400) = Returned tt w'
    /\ level w' = 1
    /\ key_x w' = key_x (started world 600 400)
    /\ key_y w' = key_y (started world 600 400)
    /\ updates w' = S (updates (started world 600 400))
    /\ num_tiles_x w' = Some 4
    /\ num_tiles_y w' = Some 4.
Proof.
  apply (wheelEvent_level (started world 600 400) (-120) true
           (mkGrid [0; 1; 2] 256 256 true true 4 4 1) 4 4).
  - reflexivity.
  - intros _. reflexivity.
Defined.
